(** * vmware.vmware: the snapshot module and the REST client builder

    A shallow embedding of [plugins/modules/vm_snapshot.py] and of
    [plugins/module_utils/clients/_rest.py], and the properties of the
    snapshot search, of snapshot resolution, of the operation dispatcher
    and of the client builder. *)

From Stdlib Require Import ZArith String Ascii List Bool Lia.
From Stdlib Require Import DecimalString.
From stdpp Require Import base decidable option list strings gmap.

Local Open Scope Z_scope.
Local Open Scope string_scope.
Local Open Scope list_scope.

(** ** Python values, as far as the two files use them *)

Module Py.

(** Values found in [module.params] and in [connection_params]. *)
Inductive value : Type :=
| VNone
| VBool (b : bool)
| VInt (z : Z)
| VStr (s : string).

#[global] Instance value_eq_dec : EqDecision value.
Proof. solve_decision. Defined.

(** Python's truth value of an object: [None], [False], [0] and the empty
    string are false. *)
Definition truthy (v : value) : bool :=
  match v with
  | VNone => false
  | VBool b => b
  | VInt z => negb (z =? 0)%Z
  | VStr s => negb (String.eqb s "")
  end.

(** [a or b]. *)
Definition or_ (a b : value) : value := if truthy a then a else b.

(** [str(v)], which is what [%s] prints. *)
Definition str (v : value) : string :=
  match v with
  | VNone => "None"
  | VBool true => "True"
  | VBool false => "False"
  | VInt z => NilZero.string_of_int (Z.to_int z)
  | VStr s => s
  end.

(** The exceptions the two files raise or let through.  [SystemExit] is
    what [exit_json] and [fail_json] end the module with; it is not an
    [Exception], so [except Exception] does not catch it.  A fault of the
    server, [RestrictedVersion], has its attribute [msg] and, apart from it,
    the text that [str] gives for the fault object. *)
Inductive exn : Type :=
| AttributeError (msg : string)
| TypeError (msg : string)
| ValueError (msg : string)
| IndexError (msg : string)
| RestrictedVersion (msg text : string)
| TaskError (msg : string)
| SSLError (msg : string)
| OtherException (msg : string)
| ApiAccessError (msg : string)
| MissingLibError (library reason : string) (url : option string).

(** [to_native(e)] and [to_text(e)]: the text of the exception. *)
Definition exn_text (e : exn) : string :=
  match e with
  | AttributeError m | TypeError m | ValueError m | IndexError m
  | TaskError m | SSLError m | OtherException m | ApiAccessError m => m
  | RestrictedVersion _ text => text
  | MissingLibError l r _ => l
  end.

(** The [%] operator on a format string whose conversions are all [%s]
    (with [%%] for a percent sign), applied to a sequence of arguments.  Too
    few or too many arguments raise [TypeError], as in Python. *)
Fixpoint percent_format (fmt : string) (args : list value) : exn + string :=
  match fmt with
  | EmptyString =>
      match args with
      | [] => inr ""
      | _ :: _ => inl (TypeError "not all arguments converted during string formatting")
      end
  | String c rest =>
      if Ascii.eqb c "%" then
        match rest with
        | EmptyString => inl (ValueError "incomplete format")
        | String d rest' =>
            if Ascii.eqb d "s" then
              match args with
              | [] => inl (TypeError "not enough arguments for format string")
              | a :: args' =>
                  match percent_format rest' args' with
                  | inl e => inl e
                  | inr s => inr (str a +:+ s)
                  end
              end
            else if Ascii.eqb d "%" then
              match percent_format rest' args with
              | inl e => inl e
              | inr s => inr (String "%" s)
              end
            else inl (ValueError "unsupported format character")
        end
      else
        match percent_format rest args with
        | inl e => inl e
        | inr s => inr (String c s)
        end
  end.

(** The class of an exception. *)
Definition class_name (e : exn) : string :=
  match e with
  | AttributeError _ => "AttributeError"
  | TypeError _ => "TypeError"
  | ValueError _ => "ValueError"
  | IndexError _ => "IndexError"
  | RestrictedVersion _ _ => "RestrictedVersion"
  | TaskError _ => "TaskError"
  | SSLError _ => "SSLError"
  | OtherException _ => "Exception"
  | ApiAccessError _ => "ApiAccessError"
  | MissingLibError _ _ _ => "MissingLibError"
  end.

End Py.

(** ** The snapshot tree of a virtual machine *)

(** A reference to a managed object of the server. *)
Definition moref := string.

(** [vim.vm.SnapshotTree]: one node of the tree the server reports. *)
#[warnings="-register-all"]
Inductive SnapshotTree : Type :=
  mkSnapshotTree {
    id : Z;
    name : string;
    snapshot : moref;
    childSnapshotList : list SnapshotTree
  }.

(** One turn of the loop of [get_snapshots_by_name_recursively], lines
    304-308: what the element [snapshot] adds to [snap_obj].  It is the
    element itself when its name is [snapname], and otherwise the result of
    the recursive call on its children, which is again the loop over them. *)
Fixpoint by_name_step (snapname : string) (snapshot : SnapshotTree)
  : list SnapshotTree :=
  if String.eqb (name snapshot) snapname then [snapshot]
  else flat_map (by_name_step snapname) (childSnapshotList snapshot).

(** [get_snapshots_by_name_recursively], lines 302-309: [snap_obj] starts
    empty and the loop extends it at its end, element after element. *)
Definition get_snapshots_by_name_recursively
    (snapshots : list SnapshotTree) (snapname : string) : list SnapshotTree :=
  flat_map (by_name_step snapname) snapshots.

(** The same for [get_snapshots_by_id_recursively], lines 311-318. *)
Fixpoint by_id_step (snapid : Z) (snapshot : SnapshotTree)
  : list SnapshotTree :=
  if Z.eqb (id snapshot) snapid then [snapshot]
  else flat_map (by_id_step snapid) (childSnapshotList snapshot).

Definition get_snapshots_by_id_recursively
    (snapshots : list SnapshotTree) (snapid : Z) : list SnapshotTree :=
  flat_map (by_id_step snapid) snapshots.

(** Every node of a tree, at any depth, parents before children. *)
Fixpoint subtree_nodes (snapshot : SnapshotTree) : list SnapshotTree :=
  snapshot :: flat_map subtree_nodes (childSnapshotList snapshot).
Definition nodes (snapshots : list SnapshotTree) : list SnapshotTree :=
  flat_map subtree_nodes snapshots.

(** The search as the specification words it: every node of the tree whose
    name is [snapname], whatever its depth. *)
Definition find_all_by_name (snapshots : list SnapshotTree) (snapname : string)
  : list SnapshotTree :=
  filter (fun s => name s = snapname) (nodes snapshots).

(** The nodes a search tests: a top-level node is tested, and so is a child
    of a tested node whose name is not [snapname]. *)
Inductive tested_by_name (snapname : string)
  : list SnapshotTree -> SnapshotTree -> Prop :=
| tested_here snapshots s :
    In s snapshots -> tested_by_name snapname snapshots s
| tested_below snapshots parent s :
    In parent snapshots -> name parent <> snapname ->
    tested_by_name snapname (childSnapshotList parent) s ->
    tested_by_name snapname snapshots s.

(** The traversal the two searches share, over any test of a node: the
    result, and the nodes the test is applied to, in the order it is. *)
Fixpoint walk_step (test : SnapshotTree -> bool) (snapshot : SnapshotTree)
  : list SnapshotTree :=
  if test snapshot then [snapshot]
  else flat_map (walk_step test) (childSnapshotList snapshot).
Definition walk (test : SnapshotTree -> bool) (snapshots : list SnapshotTree)
  : list SnapshotTree :=
  flat_map (walk_step test) snapshots.

Fixpoint visited_step (test : SnapshotTree -> bool) (snapshot : SnapshotTree)
  : list SnapshotTree :=
  snapshot ::
    (if test snapshot then []
     else flat_map (visited_step test) (childSnapshotList snapshot)).
Definition visited (test : SnapshotTree -> bool) (snapshots : list SnapshotTree)
  : list SnapshotTree :=
  flat_map (visited_step test) snapshots.

Definition name_is (snapname : string) (s : SnapshotTree) : bool :=
  String.eqb (name s) snapname.
Definition id_is (snapid : Z) (s : SnapshotTree) : bool :=
  Z.eqb (id s) snapid.

(** Every node of a tree with its ancestors, the nearest first, parents
    before children. *)
Fixpoint subtree_with_ancestors (ancestors : list SnapshotTree)
    (snapshot : SnapshotTree) : list (list SnapshotTree * SnapshotTree) :=
  (ancestors, snapshot)
    :: flat_map (subtree_with_ancestors (snapshot :: ancestors))
                (childSnapshotList snapshot).
Definition nodes_with_ancestors (snapshots : list SnapshotTree)
  : list (list SnapshotTree * SnapshotTree) :=
  flat_map (subtree_with_ancestors []) snapshots.

(** The nodes whose name is [snapname] and none of whose ancestors has that
    name, in the order parents first, each as often as the tree has it. *)
Definition has_name_and_no_such_ancestor (snapname : string)
    (p : list SnapshotTree * SnapshotTree) : bool :=
  name_is snapname (snd p)
  && forallb (fun a => negb (name_is snapname a)) (fst p).
Definition topmost_by_name (snapshots : list SnapshotTree) (snapname : string)
  : list SnapshotTree :=
  map snd (List.filter (has_name_and_no_such_ancestor snapname)
                       (nodes_with_ancestors snapshots)).

(** ** [vm_snapshot.py]: parameters, collaborators and the object state *)

(** The [choices] of the [state] parameter. *)
Inductive State : Type := present | absent | rename | revert | remove_all.

#[global] Instance State_eq_dec : EqDecision State.
Proof. solve_decision. Defined.

Definition state_str (s : State) : string :=
  match s with
  | present => "present" | absent => "absent" | rename => "rename"
  | revert => "revert" | remove_all => "remove_all"
  end.

(** [module.params], with the types of the argument spec of [main];
    [None] is a parameter that was not given. *)
Record Params : Type := {
  state : State;
  vm_name : option string;          (* params['name'] *)
  uuid : option string;
  moid : option string;
  snapshot_name : option string;
  snapshot_id : option Z;
  description : string;
  quiesce : bool;
  memory_dump : bool;
  remove_children : bool;
  new_snapshot_name : option string;
  new_description : option string
}.

Definition of_str (o : option string) : Py.value :=
  match o with Some s => Py.VStr s | None => Py.VNone end.
Definition of_int (o : option Z) : Py.value :=
  match o with Some z => Py.VInt z | None => Py.VNone end.

(** The truth test of an optional string or integer parameter, keeping the
    value when the test succeeds. *)
Definition if_str (o : option string) : option string :=
  match o with
  | Some s => if Py.truthy (Py.VStr s) then Some s else None
  | None => None
  end.
Definition if_int (o : option Z) : option Z :=
  match o with
  | Some z => if Py.truthy (Py.VInt z) then Some z else None
  | None => None
  end.

(** [vim.VirtualMachine], as far as the module reads it: [snapshot] is
    [None] or holds the [rootSnapshotList]. *)
Record VirtualMachine : Type := {
  vm_moid : moref;
  vm_snapshot : option (list SnapshotTree);
  memorySnapshotsSupported : bool;
  quiescedSnapshotsSupported : bool
}.

(** A task handle of the server. *)
Definition task := moref.

(** One entry of what [list_snapshots] reports, and its report. *)
Record snapshot_facts : Type := {
  sf_id : Z; sf_name : string; sf_description : string;
  sf_creation_time : string; sf_state : string
}.
Record snapshot_listing : Type := {
  current_snapshot : option snapshot_facts;
  snapshots : list snapshot_facts
}.

(** [self.result], and the keyword arguments of [exit_json]. *)
Record Result : Type := {
  changed : bool;
  renamed : bool;
  snapshot_results : option snapshot_listing
}.
Record exit_kwargs : Type := {
  x_changed : bool;
  x_renamed : option bool;
  x_msg : option string;
  x_snapshot_results : option snapshot_listing
}.
Definition kwargs_of_result (r : Result) : exit_kwargs :=
  {| x_changed := changed r; x_renamed := Some (renamed r); x_msg := None;
     x_snapshot_results := snapshot_results r |}.

(** How a piece of code stops short of returning: [exit_json] and
    [fail_json] of [AnsibleModule] end the run ([SystemExit]), anything else
    is an exception on its way up. *)
Inductive signal : Type :=
| ExitJson (kw : exit_kwargs)
| FailJson (msg : string)
| Raise (e : Py.exn).

(** The keyword arguments of a [RenameSnapshot] call: each is given or not. *)
Record rename_kwargs : Type := {
  kw_name : option string;
  kw_description : option (option string)
}.

(** What the code does to the world, in the order it does it: reads and
    writes of [self.vm] and [self.snap_object], and calls of collaborators. *)
Inductive event : Type :=
| EvReadVm                                   (* self.vm is read *)
| EvSearchByName (snapname : string)
| EvSearchById (snapid : Z)
| EvSetSnapObject (o : option moref)         (* self.snap_object = ... *)
| EvGetVm                                    (* get_vm_using_params *)
| EvSetVm (v : option VirtualMachine)        (* self.vm = vm_list[0] *)
| EvTable                                    (* the dispatch table is built *)
| EvCreateSnapshot (n : Py.value) (d : string) (memory quiesced : bool)
| EvRenameSnapshot (target : moref) (kw : rename_kwargs)
| EvRemoveSnapshot (target : moref) (children : bool)
| EvRevertToSnapshot (target : moref)
| EvRemoveAllSnapshots (v : moref)
| EvWait (t : task)
| EvListSnapshots.

(** What the VM lookup of the base class does: it returns a list, or ends
    the run with [fail_json] (a machine is missing), or raises. *)
Inductive lookup_reply : Type :=
| Found (vm_list : list (option VirtualMachine))
| LookupFailed (msg : string)
| LookupRaised (e : Py.exn).

(** The collaborators the module calls, none of which is code of the two
    files: the VM lookup of the base class, the methods of the managed
    objects, the task monitor and [list_snapshots].  A method returns a task
    handle or nothing ([None]), or raises. *)
Record vSphere : Type := {
  get_vm_using_params : Params -> lookup_reply;
  CreateSnapshot :
    VirtualMachine -> Py.value -> string -> bool -> bool -> Py.exn + option task;
  RenameSnapshot : moref -> rename_kwargs -> Py.exn + option task;
  RemoveSnapshot_Task : moref -> bool -> Py.exn + option task;
  RevertToSnapshot_Task : moref -> Py.exn + option task;
  RemoveAllSnapshots : VirtualMachine -> Py.exn + option task;
  wait_for_completion : task -> VirtualMachine -> Py.exn + unit;
  list_snapshots : VirtualMachine -> snapshot_listing
}.

(** The attributes of a [VmSnapshotModule] object, and the events so far.
    [vm] is [None] when the attribute is unset or holds [None]: reading an
    attribute of it raises [AttributeError] in both cases. *)
Record Self : Type := {
  result : Result;
  snap_object : option moref;
  vm : option VirtualMachine;
  vm_id : Py.value;
  trace : list event
}.

(** ** A state and exception monad for the methods *)

Definition M (A : Type) : Type := Self -> Self * (signal + A).

Definition ret {A} (a : A) : M A := fun s => (s, inr a).
Definition bind {A B} (m : M A) (k : A -> M B) : M B :=
  fun s => match m s with
           | (s', inl sig) => (s', inl sig)
           | (s', inr a) => k a s'
           end.
Definition stop {A} (sig : signal) : M A := fun s => (s, inl sig).
Definition get_self : M Self := fun s => (s, inr s).
Definition emit (e : event) : M unit :=
  fun s => ({| result := result s; snap_object := snap_object s; vm := vm s;
               vm_id := vm_id s; trace := trace s ++ [e] |}, inr tt).
Definition set_result (r : Result) : M unit :=
  fun s => ({| result := r; snap_object := snap_object s; vm := vm s;
               vm_id := vm_id s; trace := trace s |}, inr tt).
Definition set_snap_object (o : option moref) : M unit :=
  fun s => ({| result := result s; snap_object := o; vm := vm s;
               vm_id := vm_id s; trace := trace s ++ [EvSetSnapObject o] |}, inr tt).
Definition set_vm (v : option VirtualMachine) : M unit :=
  fun s => ({| result := result s; snap_object := snap_object s; vm := v;
               vm_id := vm_id s; trace := trace s ++ [EvSetVm v] |}, inr tt).
Definition set_vm_id (i : Py.value) : M unit :=
  fun s => ({| result := result s; snap_object := snap_object s; vm := vm s;
               vm_id := i; trace := trace s |}, inr tt).

Declare Scope py_scope.
Delimit Scope py_scope with py.
Notation "x <- m ;; k" := (bind m (fun x => k))
  (at level 100, m at next level, right associativity) : py_scope.
Notation "m ;;; k" := (bind m (fun _ => k))
  (at level 100, right associativity) : py_scope.
Local Open Scope py_scope.

Definition raise {A} (e : Py.exn) : M A := stop (Raise e).
Definition fail_json {A} (msg : string) : M A := stop (FailJson msg).
Definition exit_json {A} (kw : exit_kwargs) : M A := stop (ExitJson kw).

(** The reply of a collaborator, turned into a return or a raise. *)
Definition call {A} (r : Py.exn + A) : M A :=
  match r with inl e => raise e | inr a => ret a end.

(** [try: m except Exception as e: handler e]. *)
Definition try_except_Exception {A} (m : M A) (handler : Py.exn -> M A) : M A :=
  fun s => match m s with
           | (s', inl (Raise e)) => handler e s'
           | other => other
           end.

(** [try: m except TaskError as e: handler]; other exceptions go up. *)
Definition try_except_TaskError {A} (m : M A) (handler : Py.exn -> M A) : M A :=
  fun s => match m s with
           | (s', inl (Raise (Py.TaskError msg))) => handler (Py.TaskError msg) s'
           | other => other
           end.

(** Reading [self.vm] and then an attribute of it. *)
Definition read_vm : M (option VirtualMachine) :=
  emit EvReadVm ;;;
  s <- get_self ;;
  ret (vm s).
Definition self_vm (attr : string) : M VirtualMachine :=
  o <- read_vm ;;
  match o with
  | Some v => ret v
  | None => raise (Py.AttributeError ("no attribute '" +:+ attr +:+ "'"))
  end.

(** Reading an attribute of [self.snap_object]. *)
Definition self_snap_object (attr : string) : M moref :=
  s <- get_self ;;
  match snap_object s with
  | Some o => ret o
  | None => raise (Py.AttributeError
              ("'NoneType' object has no attribute '" +:+ attr +:+ "'"))
  end.

(** ** The methods of [VmSnapshotModule] *)

Section VmSnapshotModule.

Context (srv : vSphere) (module : Params).

(** [get_snapshots_recursively], lines 320-326.  When neither branch is
    taken the method falls off its end and returns [None]. *)
Definition get_snapshots_recursively : M (option (list SnapshotTree)) :=
  match if_str (snapshot_name module) with
  | Some snapname =>
      v <- self_vm "snapshot" ;;
      match vm_snapshot v with
      | None => raise (Py.AttributeError
                  "'NoneType' object has no attribute 'rootSnapshotList'")
      | Some rootSnapshotList =>
          emit (EvSearchByName snapname) ;;;
          ret (Some (get_snapshots_by_name_recursively rootSnapshotList snapname))
      end
  | None =>
      match if_int (snapshot_id module) with
      | Some snapid =>
          if bool_decide (state module = absent) || bool_decide (state module = revert)
          then
            v <- self_vm "snapshot" ;;
            match vm_snapshot v with
            | None => raise (Py.AttributeError
                        "'NoneType' object has no attribute 'rootSnapshotList'")
            | Some rootSnapshotList =>
                emit (EvSearchById snapid) ;;;
                ret (Some (get_snapshots_by_id_recursively rootSnapshotList snapid))
            end
          else ret None
      | None => ret None
      end
  end.

(** [__init__], lines 278-300, from the object the [super] call leaves. *)
Definition __init__ : M unit :=
  set_result {| changed := false; renamed := false; snapshot_results := None |} ;;;
  v <- self_vm "snapshot" ;;
  match vm_snapshot v with
  | None => set_snap_object None
  | Some _ =>
      found <- get_snapshots_recursively ;;
      match found with
      | None => raise (Py.TypeError "object of type 'NoneType' has no len()")
      | Some l =>
          match l with
          | [s] => set_snap_object (Some (snapshot s))
          | _ => set_snap_object None
          end
      end
  end ;;;
  emit EvGetVm ;;;
  vm_list <- match get_vm_using_params srv module with
             | Found vm_list => ret vm_list
             | LookupFailed msg => fail_json msg
             | LookupRaised e => raise e
             end ;;
  match vm_list with
  | [] => raise (Py.IndexError "list index out of range")
  | v0 :: _ => set_vm v0
  end ;;;
  set_vm_id (Py.or_ (Py.or_ (of_str (uuid module)) (of_str (vm_name module)))
                    (of_str (moid module))) ;;;
  o <- read_vm ;;
  s <- get_self ;;
  match o with
  | None => fail_json ("Unable to manage snapshots for non-existing VM "
                         +:+ Py.str (vm_id s))
  | Some _ => ret tt
  end ;;;
  if negb (Py.truthy (Py.or_ (of_str (snapshot_name module))
                              (of_int (snapshot_id module))))
     && negb (bool_decide (state module = remove_all))
  then fail_json ("snapshot_name param required when state is '"
                    +:+ state_str (state module) +:+ "'")
  else ret tt.

(** [snapshot_vm], lines 328-345. *)
Definition snapshot_vm : M (option task) :=
  s <- get_self ;;
  match snap_object s with
  | Some _ =>
      exit_json {| x_changed := false; x_renamed := None;
                   x_msg := Some ("Snapshot named ["
                                    +:+ Py.str (of_str (snapshot_name module))
                                    +:+ "] already exists");
                   x_snapshot_results := None |}
  | None => ret tt
  end ;;;
  memory_dump <-
    (if memory_dump module
     then v <- self_vm "capability" ;; ret (memorySnapshotsSupported v)
     else ret false) ;;
  quiesce <-
    (if quiesce module
     then v <- self_vm "capability" ;; ret (quiescedSnapshotsSupported v)
     else ret false) ;;
  (fun s =>
     match
       (v <- self_vm "CreateSnapshot" ;;
        emit (EvCreateSnapshot (of_str (snapshot_name module))
                               (description module) memory_dump quiesce) ;;;
        call (CreateSnapshot srv v (of_str (snapshot_name module))
                             (description module) memory_dump quiesce)) s
     with
     | (s', inl (Raise (Py.RestrictedVersion msg _))) =>
         fail_json ("Failed to take snapshot due to VMware Licence restriction : "
                      +:+ msg) s'
     | (s', inl (Raise e)) =>
         fail_json ("Failed to create snapshot of virtual machine "
                      +:+ Py.str (of_str (vm_name module)) +:+ " due to "
                      +:+ Py.exn_text e) s'
     | other => other
     end).

(** [rename_snapshot], lines 347-358. *)
Definition rename_snapshot : M (option task) :=
  task <-
    (match if_str (new_snapshot_name module), if_str (new_description module) with
     | Some n, Some d =>
         o <- self_snap_object "RenameSnapshot" ;;
         let kw := {| kw_name := Some n; kw_description := Some (Some d) |} in
         emit (EvRenameSnapshot o kw) ;;; call (RenameSnapshot srv o kw)
     | Some n, None =>
         o <- self_snap_object "RenameSnapshot" ;;
         let kw := {| kw_name := Some n; kw_description := None |} in
         emit (EvRenameSnapshot o kw) ;;; call (RenameSnapshot srv o kw)
     | None, _ =>
         o <- self_snap_object "RenameSnapshot" ;;
         let kw := {| kw_name := None;
                      kw_description := Some (new_description module) |} in
         emit (EvRenameSnapshot o kw) ;;; call (RenameSnapshot srv o kw)
     end) ;;
  s <- get_self ;;
  set_result {| changed := true; renamed := renamed (result s);
                snapshot_results := snapshot_results (result s) |} ;;;
  s <- get_self ;;
  set_result {| changed := changed (result s); renamed := true;
                snapshot_results := snapshot_results (result s) |} ;;;
  ret task.

(** The dictionary [snapshot_state_function] of [apply_snapshot_op], lines
    366-372.  Building it reads [self.snap_object.RevertToSnapshot_Task] and
    [self.vm.RemoveAllSnapshots], two bound methods; the entry of [absent] is
    a lambda, whose body runs only when it is called. *)
Definition snapshot_state_function : M (State -> M (option task)) :=
  revert_target <- self_snap_object "RevertToSnapshot_Task" ;;
  remove_all_target <- self_vm "RemoveAllSnapshots" ;;
  emit EvTable ;;;
  ret (fun st =>
         match st with
         | present => snapshot_vm
         | rename => rename_snapshot
         | absent =>
             o <- self_snap_object "RemoveSnapshot_Task" ;;
             emit (EvRemoveSnapshot o (remove_children module)) ;;;
             call (RemoveSnapshot_Task srv o (remove_children module))
         | revert =>
             emit (EvRevertToSnapshot revert_target) ;;;
             call (RevertToSnapshot_Task srv revert_target)
         | remove_all =>
             emit (EvRemoveAllSnapshots (vm_moid remove_all_target)) ;;;
             call (RemoveAllSnapshots srv remove_all_target)
         end).

(** [apply_snapshot_op], lines 360-388. *)
Definition apply_snapshot_op : M unit :=
  s <- get_self ;;
  (if (bool_decide (state module = absent) || bool_decide (state module = revert)
       || bool_decide (state module = rename))
      && bool_decide (snap_object s = None)
   then fail_json ("Couldn't find any snapshots with specified name: "
                     +:+ Py.str (Py.or_ (of_str (snapshot_name module))
                                        (of_int (snapshot_id module)))
                     +:+ " on VM: " +:+ Py.str (vm_id s))
   else ret tt) ;;;
  table <- snapshot_state_function ;;
  task <- try_except_Exception (table (state module))
            (fun e => fail_json (Py.exn_text e)) ;;
  match task with
  | None => ret tt
  | Some t =>
      try_except_TaskError
        (v <- self_vm "vm" ;;
         emit (EvWait t) ;;;
         call (wait_for_completion srv t v))
        (fun e => fail_json (Py.exn_text e)) ;;;
      s <- get_self ;;
      set_result {| changed := true; renamed := renamed (result s);
                    snapshot_results := snapshot_results (result s) |} ;;;
      v <- self_vm "vm" ;;
      emit EvListSnapshots ;;;
      s <- get_self ;;
      set_result {| changed := changed (result s); renamed := renamed (result s);
                    snapshot_results := Some (list_snapshots srv v) |}
  end.

(** [main], lines 431-433, after the parameters are parsed: build the
    object, apply the operation, and exit with the result. *)
Definition main : M unit :=
  __init__ ;;;
  apply_snapshot_op ;;;
  s <- get_self ;;
  exit_json (kwargs_of_result (result s)).

End VmSnapshotModule.

(** The calls that change the snapshots of the machine. *)
Definition is_mutation (e : event) : bool :=
  match e with
  | EvCreateSnapshot _ _ _ _ | EvRenameSnapshot _ _ | EvRemoveSnapshot _ _
  | EvRevertToSnapshot _ | EvRemoveAllSnapshots _ => true
  | _ => false
  end.

Definition is_wait (e : event) : bool :=
  match e with EvWait _ => true | _ => false end.

(** The events before the first assignment of [self.vm], when there is one. *)
Fixpoint before_assignment (t : list event) : option (list event) :=
  match t with
  | [] => None
  | EvSetVm _ :: _ => Some []
  | e :: t' => option_map (cons e) (before_assignment t')
  end.

(** The object as the [super] call of the constructor leaves it: [vm0] is
    what [self.vm] then holds, [None] when nothing has set it. *)
Definition after_super (vm0 : option VirtualMachine) : Self :=
  {| result := {| changed := false; renamed := false; snapshot_results := None |};
     snap_object := None; vm := vm0; vm_id := Py.VNone; trace := [] |}.

(** The message of the check at the head of [apply_snapshot_op]. *)
Definition not_found_msg (module : Params) (s : Self) : string :=
  "Couldn't find any snapshots with specified name: "
  +:+ Py.str (Py.or_ (of_str (snapshot_name module)) (of_int (snapshot_id module)))
  +:+ " on VM: " +:+ Py.str (vm_id s).

(** The message of the no-op of [present]. *)
Definition already_exists (module : Params) : exit_kwargs :=
  {| x_changed := false; x_renamed := None;
     x_msg := Some ("Snapshot named [" +:+ Py.str (of_str (snapshot_name module))
                      +:+ "] already exists");
     x_snapshot_results := None |}.

(** ** [_rest.py]: the REST client builder *)

Module Rest.

(** [requests.Session], as far as the builder touches it.  A value of
    [proxies] is the tuple the dictionary display of
    [__configure_session_proxies] denotes. *)
Record Session : Type := {
  verify : Py.value;
  proxies : list (Py.value * (string * Py.value * Py.value))
}.

(** [d.update({k: v})] on a dictionary kept in insertion order. *)
Fixpoint dict_update {V} (d : list (Py.value * V)) (k : Py.value) (v : V)
  : list (Py.value * V) :=
  match d with
  | [] => [(k, v)]
  | (k', v') :: d' =>
      if bool_decide (k' = k) then (k, v) :: d' else (k', v') :: dict_update d' k v
  end.

(** [d.get(k, dflt)] of a dictionary with string keys. *)
Definition get (d : gmap string Py.value) (k : string) (dflt : Py.value) : Py.value :=
  default dflt (d !! k).

(** The authenticated client [create_vsphere_client] returns. *)
Definition client := string.

Inductive event : Type :=
| EvNewSession                               (* requests.Session() *)
| EvDisableWarnings                          (* urllib3.disable_warnings *)
| EvCreateClient (server : string) (username password : Py.value) (s : Session).

(** A run: the events so far, and an exception or a value. *)
Definition R (A : Type) : Type := list event * (Py.exn + A).

Definition ret {A} (a : A) : R A := ([], inr a).
Definition raise {A} (e : Py.exn) : R A := ([], inl e).
Definition emit (e : event) : R unit := ([e], inr tt).
Definition bind {A B} (m : R A) (k : A -> R B) : R B :=
  match m with
  | (t, inl e) => (t, inl e)
  | (t, inr a) => let '(t', r) := k a in (t ++ t', r)
  end.
Definition lift {A} (r : Py.exn + A) : R A := ([], r).

Declare Scope rest_scope.
Notation "x <- m ;; k" := (bind m (fun x => k))
  (at level 100, m at next level, right associativity) : rest_scope.
Notation "m ;;; k" := (bind m (fun _ => k))
  (at level 100, right associativity) : rest_scope.
Local Open Scope rest_scope.

Section VmwareRestClient.

(** The flags the imports at the head of the file set, the session
    [requests.Session()] gives, and the SDK's [create_vsphere_client]. *)
Context (REQUESTS_IMP_ERR VSPHERE_IMP_ERR : option string)
        (HAS_URLLIB3 : bool)
        (fresh_session : Session)
        (create_vsphere_client :
           string -> Py.value -> Py.value -> Session -> Py.exn + option client).

(** [check_requirements], lines 58-68. *)
Definition check_requirements : R unit :=
  match if_str REQUESTS_IMP_ERR with
  | Some err => raise (Py.MissingLibError "requests" err None)
  | None =>
      match if_str VSPHERE_IMP_ERR with
      | Some err =>
          raise (Py.MissingLibError "vSphere Automation SDK" err
                   (Some "https://code.vmware.com/web/sdk/7.0/vsphere-automation-python"))
      | None => ret tt
      end
  end.

Definition hostname_missing : string :=
  "Hostname parameter is missing. Please specify this parameter in task or "
  +:+ "export environment variable like 'export VMWARE_HOST=ESXI_HOSTNAME'".
Definition username_missing : string :=
  "Username parameter is missing. Please specify this parameter in task or "
  +:+ "export environment variable like 'export VMWARE_USER=ESXI_USERNAME'".
Definition password_missing : string :=
  "Password parameter is missing. Please specify this parameter in task or "
  +:+ "export environment variable like 'export VMWARE_PASSWORD=ESXI_PASSWORD'".

(** [__validate_required_connection_params], lines 98-120. *)
Definition __validate_required_connection_params
    (hostname username password : Py.value) : R unit :=
  if negb (Py.truthy hostname) then raise (Py.ApiAccessError hostname_missing)
  else if negb (Py.truthy username) then raise (Py.ApiAccessError username_missing)
  else if negb (Py.truthy password) then raise (Py.ApiAccessError password_missing)
  else ret tt.

(** [__configure_session_ssl_context], lines 122-127. *)
Definition __configure_session_ssl_context
    (session : Session) (validate_certs : Py.value) : R Session :=
  let session := {| verify := validate_certs; proxies := proxies session |} in
  (if negb (Py.truthy validate_certs)
   then if HAS_URLLIB3 then emit EvDisableWarnings else ret tt
   else ret tt) ;;;
  ret session.

(** [__configure_session_proxies], lines 129-138.  The [%] of lines 133-134
    binds tighter than the commas after it: its right operand is
    [http_proxy_protocol] alone, and the value of the dictionary is the
    tuple of the formatted string, the host and the port. *)
Definition __configure_session_proxies
    (session : Session) (http_proxy_host http_proxy_port http_proxy_protocol : Py.value)
  : R Session :=
  if forallb Py.truthy [http_proxy_host; http_proxy_port; http_proxy_protocol]
  then
    formatted <- lift (Py.percent_format "{%s}://{%s}:{%s}" [http_proxy_protocol]) ;;
    let http_proxies := (http_proxy_protocol,
                         (formatted, http_proxy_host, http_proxy_port)) in
    ret {| verify := verify session;
           proxies := dict_update (proxies session) (fst http_proxies)
                                  (snd http_proxies) |}
  else ret session.

(** [__create_client_connection], lines 140-158. *)
Definition __create_client_connection
    (session : Session) (hostname username password port : Py.value) : R client :=
  msg <- lift (Py.percent_format
                 "Failed to connect to vCenter or ESXi API at %s:%s" [hostname; port]) ;;
  server <- lift (Py.percent_format "%s:%s" [hostname; port]) ;;
  emit (EvCreateClient server username password session) ;;;
  match create_vsphere_client server username password session with
  | inl (Py.SSLError text) =>
      let msg := msg +:+ " due to SSL verification failure" in
      raise (Py.ApiAccessError (msg +:+ " : " +:+ text))
  | inl e => raise (Py.ApiAccessError (msg +:+ " : " +:+ Py.exn_text e))
  | inr None =>
      m <- lift (Py.percent_format "Failed to login to %s" [hostname]) ;;
      raise (Py.ApiAccessError m)
  | inr (Some c) => ret c
  end.

(** [connect_to_api], lines 70-96. *)
Definition connect_to_api (connection_params : gmap string Py.value) : R client :=
  let hostname := get connection_params "hostname" Py.VNone in
  let username := get connection_params "username" Py.VNone in
  let password := get connection_params "password" Py.VNone in
  let port := get connection_params "port" (Py.VInt 443) in
  let validate_certs := get connection_params "validate_certs" Py.VNone in
  let http_proxy_host := get connection_params "http_proxy_host" Py.VNone in
  let http_proxy_port := get connection_params "http_proxy_port" Py.VNone in
  let http_proxy_protocol := get connection_params "http_proxy_protocol" Py.VNone in
  __validate_required_connection_params hostname username password ;;;
  emit EvNewSession ;;;
  let session := fresh_session in
  session <- __configure_session_ssl_context session validate_certs ;;
  session <- __configure_session_proxies session http_proxy_host http_proxy_port
               http_proxy_protocol ;;
  __create_client_connection session hostname username password port.

End VmwareRestClient.

End Rest.

(** ** Concrete trees, machines and servers *)

Module Scenario.

Definition leaf (i : Z) (n : string) : SnapshotTree :=
  mkSnapshotTree i n ("snapshot-" +:+ n) [].

(** The tree of the end-to-end scenario of the specification. *)
Definition tree : list SnapshotTree :=
  [leaf 3 "snap1"; mkSnapshotTree 4 "snap2" "snapshot-snap2" [leaf 5 "snap3"]].

(** A snapshot taken under a snapshot of the same name. *)
Definition inner : SnapshotTree := leaf 2 "snap1".
Definition nested : list SnapshotTree :=
  [mkSnapshotTree 1 "snap1" "snapshot-outer" [inner]; leaf 6 "other"].

(** Two siblings of the same name. *)
Definition twins : list SnapshotTree := [leaf 7 "snap1"; leaf 8 "snap1"].

(** A machine with the given snapshot tree, and a server that finds it,
    hands out a task for every operation but [RenameSnapshot], whose reply
    is given, and reports the given outcome of the wait. *)
Definition machine (roots : option (list SnapshotTree)) : VirtualMachine :=
  {| vm_moid := "vm-42"; vm_snapshot := roots;
     memorySnapshotsSupported := true; quiescedSnapshotsSupported := false |}.

Definition listing : snapshot_listing :=
  {| current_snapshot := None; snapshots := [] |}.

Definition server (roots : option (list SnapshotTree))
    (rename_reply : Py.exn + option task) (wait_reply : Py.exn + unit) : vSphere :=
  {| get_vm_using_params := fun _ => Found [Some (machine roots)];
     CreateSnapshot := fun _ _ _ _ _ => inr (Some "task-create");
     RenameSnapshot := fun _ _ => rename_reply;
     RemoveSnapshot_Task := fun _ _ => inr (Some "task-remove");
     RevertToSnapshot_Task := fun _ => inr (Some "task-revert");
     RemoveAllSnapshots := fun _ => inr (Some "task-remove-all");
     wait_for_completion := fun _ _ => wait_reply;
     list_snapshots := fun _ => listing |}.

Definition params (st : State) (snapname : option string) (snapid : option Z)
  : Params :=
  {| state := st; vm_name := Some "guest"; uuid := None; moid := None;
     snapshot_name := snapname; snapshot_id := snapid; description := "";
     quiesce := false; memory_dump := false; remove_children := false;
     new_snapshot_name := Some "renamed3"; new_description := None |}.

(** The object when the constructor starts, [self.vm] holding the machine. *)
Definition start (roots : option (list SnapshotTree)) : Self :=
  after_super (Some (machine roots)).

(** Connection parameters that are complete, the same with the three
    proxy parameters, and a session. *)
Definition complete : gmap string Py.value :=
  <["hostname" := Py.VStr "vcenter.example"]>
    (<["username" := Py.VStr "admin"]>
       (<["password" := Py.VStr "secret"]>
          (<["validate_certs" := Py.VBool true]> ∅))).
Definition with_proxy : gmap string Py.value :=
  <["http_proxy_host" := Py.VStr "proxy.example"]>
    (<["http_proxy_port" := Py.VInt 3128]>
       (<["http_proxy_protocol" := Py.VStr "http"]> complete)).
Definition session0 : Rest.Session :=
  {| Rest.verify := Py.VBool true; Rest.proxies := [] |}.

End Scenario.

(** ** [_rest.py]: the client object and its tag queries *)

Module RestClient.

(** A service of the SDK client, and what the tag services hand out. *)
Definition service := string.
Definition tag_id := string.
Definition tag := string.

(** [DynamicID] of the SDK: the type and the id of a managed object. *)
Record DynamicID : Type := { dyn_type : string; dyn_id : string }.

(** The attributes [__init__] sets. *)
Record VmwareRestClient : Type := {
  api_client : Rest.client;
  library_service : service;
  library_item_service : service;
  tag_service : service;
  tag_association_service : service;
  tag_category_service : service
}.

(** The calls of the tag services. *)
Inductive event : Type :=
| EvListAttachedTags (svc : service) (dobj : DynamicID)
| EvGetTag (svc : service) (t : tag_id).

(** A run of a tag query: the calls made, and an exception or a value. *)
Definition Q (A : Type) : Type := list event * (Py.exn + A).

Definition ret {A} (a : A) : Q A := ([], inr a).
Definition bind {A B} (m : Q A) (k : A -> Q B) : Q B :=
  match m with
  | (t, inl e) => (t, inl e)
  | (t, inr a) => let '(t', r) := k a in (t ++ t', r)
  end.
Definition invoke {A} (e : event) (reply : Py.exn + A) : Q A := ([e], reply).

Section Client.

(** The import flags, the session and the SDK of [Rest], the attributes of
    the SDK client that [__init__] reads, by their path, and the two calls
    of the tag services. *)
Context (REQUESTS_IMP_ERR VSPHERE_IMP_ERR : option string)
        (HAS_URLLIB3 : bool)
        (fresh_session : Rest.Session)
        (create_vsphere_client :
           string -> Py.value -> Py.value -> Rest.Session
           -> Py.exn + option Rest.client)
        (attribute : Rest.client -> string -> service)
        (list_attached_tags : service -> DynamicID -> Py.exn + list tag_id)
        (tag_get : service -> tag_id -> Py.exn + tag).

(** [VmwareRestClient.__init__], lines 47-56. *)
Definition __init__ (connection_params : gmap string Py.value)
  : Rest.R VmwareRestClient :=
  Rest.bind (Rest.check_requirements REQUESTS_IMP_ERR VSPHERE_IMP_ERR) (fun _ =>
  Rest.bind (Rest.connect_to_api HAS_URLLIB3 fresh_session create_vsphere_client
               connection_params) (fun api_client =>
  Rest.ret {| api_client := api_client;
              library_service := attribute api_client "content.Library";
              library_item_service := attribute api_client "content.library.Item";
              tag_service := attribute api_client "tagging.Tag";
              tag_association_service := attribute api_client "tagging.TagAssociation";
              tag_category_service := attribute api_client "tagging.Category" |})).

(** The loop of [get_tags_for_dynamic_id_obj], lines 197-198: each tag
    object is appended to [tags]. *)
Fixpoint get_each (self : VmwareRestClient) (tag_ids : list tag_id) (tags : list tag)
  : Q (list tag) :=
  match tag_ids with
  | [] => ret tags
  | tag_id :: rest =>
      bind (invoke (EvGetTag (tag_service self) tag_id)
                   (tag_get (tag_service self) tag_id))
           (fun t => get_each self rest (tags ++ [t]))
  end.

(** [get_tags_for_dynamic_id_obj], lines 184-200.  [dobj] is [None] or a
    [DynamicID], which is a true value. *)
Definition get_tags_for_dynamic_id_obj (self : VmwareRestClient)
    (dobj : option DynamicID) : Q (list tag) :=
  let tags := [] in
  match dobj with
  | None => ret tags
  | Some d =>
      bind (invoke (EvListAttachedTags (tag_association_service self) d)
                   (list_attached_tags (tag_association_service self) d))
           (fun tag_ids => get_each self tag_ids tags)
  end.

(** [get_tags_by_vm_moid], lines 160-170. *)
Definition get_tags_by_vm_moid (self : VmwareRestClient) (vm_moid : string)
  : Q (list tag) :=
  let dobj := {| dyn_type := "VirtualMachine"; dyn_id := vm_moid |} in
  get_tags_for_dynamic_id_obj self (Some dobj).

(** [get_tags_by_host_moid], lines 172-182. *)
Definition get_tags_by_host_moid (self : VmwareRestClient) (host_moid : string)
  : Q (list tag) :=
  let dobj := {| dyn_type := "HostSystem"; dyn_id := host_moid |} in
  get_tags_for_dynamic_id_obj self (Some dobj).

End Client.

(** A client object, and tag services that know three tags, one of which
    cannot be read. *)
Definition example_client : VmwareRestClient :=
  {| api_client := "client"; library_service := "Library";
     library_item_service := "Item"; tag_service := "Tag";
     tag_association_service := "TagAssociation";
     tag_category_service := "Category" |}.
Definition example_attached (_ : service) (_ : DynamicID) : Py.exn + list tag_id :=
  inr ["id-1"; "id-2"; "id-3"].
Definition example_get (_ : service) (t : tag_id) : Py.exn + tag :=
  inr ("tag of " +:+ t).
Definition example_get_broken (_ : service) (t : tag_id) : Py.exn + tag :=
  if String.eqb t "id-2" then inl (Py.OtherException "not found")
  else inr ("tag of " +:+ t).

End RestClient.

(** The collaborator calls of the module, by kind. *)
Definition is_lookup (e : event) : bool :=
  match e with EvGetVm => true | _ => false end.
Definition is_listing (e : event) : bool :=
  match e with EvListSnapshots => true | _ => false end.
Definition is_search (e : event) : bool :=
  match e with EvSearchByName _ | EvSearchById _ => true | _ => false end.

(** More concrete parameters, servers and objects. *)
Module Cases.

Definition create_params : Params :=
  {| state := present; vm_name := Some "guest"; uuid := None; moid := None;
     snapshot_name := Some "snap1"; snapshot_id := None; description := "first";
     quiesce := true; memory_dump := true; remove_children := false;
     new_snapshot_name := None; new_description := None |}.

(** A server whose licence does not allow snapshots. *)
Definition unlicensed : vSphere :=
  {| get_vm_using_params := fun _ => Found [Some (Scenario.machine None)];
     CreateSnapshot := fun _ _ _ _ _ => inl (Py.RestrictedVersion "no licence" "(vim.fault.RestrictedVersion)");
     RenameSnapshot := fun _ _ => inr None;
     RemoveSnapshot_Task := fun _ _ => inr None;
     RevertToSnapshot_Task := fun _ => inr None;
     RemoveAllSnapshots := fun _ => inr None;
     wait_for_completion := fun _ _ => inr tt;
     list_snapshots := fun _ => Scenario.listing |}.

(** The object after a constructor that resolved the snapshot [snap3]. *)
Definition resolved : Self :=
  {| result := {| changed := false; renamed := false; snapshot_results := None |};
     snap_object := Some "snapshot-snap3";
     vm := Some (Scenario.machine (Some Scenario.tree));
     vm_id := Py.VStr "guest"; trace := [] |}.

End Cases.

(** * Properties *)

(** ** The two searches *)

(** Induction on a tree, with the hypothesis on all the children. *)
Lemma SnapshotTree_children_ind (P : SnapshotTree -> Prop) :
  (forall i n r cs, Forall P cs -> P (mkSnapshotTree i n r cs)) ->
  forall t, P t.
Proof.
  intros step. fix IH 1. intros [i n r cs]. apply step.
  induction cs as [|c cs IHcs]; constructor; [apply IH | exact IHcs].
Qed.



Lemma by_name_cons snapshot rest snapname :
  get_snapshots_by_name_recursively (snapshot :: rest) snapname =
  (if String.eqb (name snapshot) snapname then [snapshot]
   else get_snapshots_by_name_recursively (childSnapshotList snapshot) snapname)
  ++ get_snapshots_by_name_recursively rest snapname.
Proof. destruct snapshot; reflexivity. Qed.

Lemma by_id_cons snapshot rest snapid :
  get_snapshots_by_id_recursively (snapshot :: rest) snapid =
  (if Z.eqb (id snapshot) snapid then [snapshot]
   else get_snapshots_by_id_recursively (childSnapshotList snapshot) snapid)
  ++ get_snapshots_by_id_recursively rest snapid.
Proof. destruct snapshot; reflexivity. Qed.

Lemma by_name_app l1 l2 snapname :
  get_snapshots_by_name_recursively (l1 ++ l2) snapname =
  get_snapshots_by_name_recursively l1 snapname
  ++ get_snapshots_by_name_recursively l2 snapname.
Proof. apply flat_map_app. Qed.

Lemma tested_by_name_cons snapname a rest s :
  tested_by_name snapname (a :: rest) s <->
  s = a \/ (name a <> snapname /\ tested_by_name snapname (childSnapshotList a) s)
  \/ tested_by_name snapname rest s.
Proof.
  split.
  - intros H. inversion H as [? ? Hin | ? p ? Hin Hne Hsub]; subst.
    + destruct Hin as [-> | Hin]; [by left | right; right; by constructor].
    + destruct Hin as [-> | Hin]; [right; left; done |].
      right; right. eapply tested_below; eauto.
  - intros [-> | [[Hne Hsub] | H]].
    + constructor. by left.
    + eapply tested_below; [by left | done | done].
    + inversion H; subst.
      * constructor. by right.
      * eapply tested_below; [right; eassumption | done | done].
Qed.

Lemma tested_by_name_nil snapname s : ~ tested_by_name snapname [] s.
Proof. intros H. inversion H; subst; simpl in *; done. Qed.

(** What one turn of the loop adds: the tested nodes of that subtree whose
    name is the one sought. *)
Lemma by_name_step_spec snapname t s :
  In s (by_name_step snapname t) <->
  tested_by_name snapname [t] s /\ name s = snapname.
Proof.
  revert s. induction t as [i n r cs IH] using SnapshotTree_children_ind.
  intros s. rewrite tested_by_name_cons. simpl.
  destruct (String.eqb_spec n snapname) as [-> | Hne].
  - simpl. split.
    + intros [<- | []]. split; [by left | done].
    + intros [[-> | [[Hne _] | H]] Hs]; [by left | done |].
      by apply tested_by_name_nil in H.
  - assert (Hcs : forall s, In s (flat_map (by_name_step snapname) cs) <->
                            tested_by_name snapname cs s /\ name s = snapname).
    { clear Hne. induction cs as [|c cs IHcs]; intros s'; simpl.
      - split; [done | intros [H _]; by apply tested_by_name_nil in H].
      - inversion IH as [|? ? Hc Hrest]; subst.
        rewrite in_app_iff, Hc, (IHcs Hrest), (tested_by_name_cons _ c cs s').
        rewrite (tested_by_name_cons _ c [] s').
        split.
        + intros [[[-> | [H | H]] Hs] | [H Hs]]; split; auto.
          by apply tested_by_name_nil in H.
        + intros [[-> | [H | H]] Hs]; [left | left | right]; auto. }
    rewrite Hcs. split.
    + intros [H Hs]. split; [right; left; done | done].
    + intros [[-> | [[_ H] | H]] Hs]; [done | done |].
      by apply tested_by_name_nil in H.
Qed.

Lemma by_name_spec snapshots snapname s :
  In s (get_snapshots_by_name_recursively snapshots snapname) <->
  tested_by_name snapname snapshots s /\ name s = snapname.
Proof.
  induction snapshots as [|a rest IH].
  - simpl. split; [done | intros [H _]; by apply tested_by_name_nil in H].
  - unfold get_snapshots_by_name_recursively in *. simpl.
    rewrite in_app_iff, IH, by_name_step_spec.
    rewrite (tested_by_name_cons _ a rest s), (tested_by_name_cons _ a [] s).
    split.
    + intros [[[-> | [H | H]] Hs] | [H Hs]]; split; auto.
      by apply tested_by_name_nil in H.
    + intros [[-> | [H | H]] Hs]; [left | left | right]; auto.
Qed.

Lemma tested_by_name_in_nodes snapname snapshots s :
  tested_by_name snapname snapshots s -> In s (nodes snapshots).
Proof.
  induction 1 as [snapshots s Hin | snapshots p s Hin Hne Hsub IH].
  - apply in_flat_map. exists s. split; [done |]. destruct s; simpl; by left.
  - apply in_flat_map. exists p. split; [done |]. destruct p; simpl in *; by right.
Qed.

Lemma flat_map_nil_iff {A B} (f : A -> list B) (l : list A) :
  flat_map f l = [] <-> Forall (fun a => f a = []) l.
Proof.
  induction l as [|a l IH]; simpl.
  - split; [constructor | done].
  - split.
    + intros [Ha Hl]%app_eq_nil. constructor; [done | by apply IH].
    + intros H. inversion H as [|? ? Ha Hl]; subst. rewrite Ha. by apply IH.
Qed.

(** The shared traversal returns the tested nodes that pass the test, in
    the order they are tested. *)
Lemma walk_step_filter test t :
  walk_step test t = List.filter test (visited_step test t).
Proof.
  induction t as [i n r cs IH] using SnapshotTree_children_ind.
  simpl. destruct (test _); [reflexivity |].
  induction IH as [|c cs Hc _ IHcs]; simpl; [reflexivity |].
  by rewrite List.filter_app, Hc, IHcs.
Qed.

Lemma walk_filter test snapshots :
  walk test snapshots = List.filter test (visited test snapshots).
Proof.
  unfold walk, visited. induction snapshots as [|a rest IH]; simpl; [done |].
  by rewrite List.filter_app, walk_step_filter, IH.
Qed.

Lemma by_id_step_walk snapid t : by_id_step snapid t = walk_step (id_is snapid) t.
Proof.
  induction t as [i n r cs IH] using SnapshotTree_children_ind.
  simpl. unfold id_is at 1. simpl. destruct (i =? snapid)%Z; [reflexivity |].
  induction IH as [|c cs Hc _ IHcs]; simpl; [reflexivity |].
  by rewrite Hc, IHcs.
Qed.

Lemma by_name_step_walk snapname t :
  by_name_step snapname t = walk_step (name_is snapname) t.
Proof.
  induction t as [i n r cs IH] using SnapshotTree_children_ind.
  simpl. unfold name_is at 1. simpl. destruct (String.eqb n snapname); [reflexivity |].
  induction IH as [|c cs Hc _ IHcs]; simpl; [reflexivity |].
  by rewrite Hc, IHcs.
Qed.

Lemma by_id_walk T I : get_snapshots_by_id_recursively T I = walk (id_is I) T.
Proof.
  unfold get_snapshots_by_id_recursively, walk.
  induction T as [|a rest IH]; simpl; [done |]. by rewrite by_id_step_walk, IH.
Qed.

Lemma by_name_walk T N : get_snapshots_by_name_recursively T N = walk (name_is N) T.
Proof.
  unfold get_snapshots_by_name_recursively, walk.
  induction T as [|a rest IH]; simpl; [done |]. by rewrite by_name_step_walk, IH.
Qed.

Lemma filter_flat_map {A B} (P : B -> bool) (f : A -> list B) (l : list A) :
  List.filter P (flat_map f l) = flat_map (fun a => List.filter P (f a)) l.
Proof.
  induction l as [|a l IH]; simpl; [done |]. by rewrite List.filter_app, IH.
Qed.

Lemma map_flat_map {A B C} (g : B -> C) (f : A -> list B) (l : list A) :
  map g (flat_map f l) = flat_map (fun a => map g (f a)) l.
Proof.
  induction l as [|a l IH]; simpl; [done |]. by rewrite map_app, IH.
Qed.

Lemma flat_map_ext_Forall {A B} (f g : A -> list B) (l : list A) :
  Forall (fun a => f a = g a) l -> flat_map f l = flat_map g l.
Proof.
  induction 1 as [|a l Ha _ IH]; simpl; [done |]. by rewrite Ha, IH.
Qed.

(** Under an ancestor of the name sought nothing is kept. *)
Lemma nothing_under_a_match snapname t ancestors :
  forallb (fun a => negb (name_is snapname a)) ancestors = false ->
  List.filter (has_name_and_no_such_ancestor snapname)
              (subtree_with_ancestors ancestors t) = [].
Proof.
  revert ancestors.
  induction t as [i n r cs IH] using SnapshotTree_children_ind.
  intros ancestors Hanc. simpl.
  unfold has_name_and_no_such_ancestor at 1. simpl. rewrite Hanc, andb_false_r.
  rewrite filter_flat_map. apply flat_map_nil_iff.
  eapply Forall_impl; [exact IH |]. intros c Hc. apply Hc.
  simpl. by rewrite Hanc, andb_false_r.
Qed.

(** One turn of the loop, under ancestors none of which has the name. *)
Lemma by_name_step_topmost snapname t ancestors :
  forallb (fun a => negb (name_is snapname a)) ancestors = true ->
  by_name_step snapname t
  = map snd (List.filter (has_name_and_no_such_ancestor snapname)
                         (subtree_with_ancestors ancestors t)).
Proof.
  revert ancestors.
  induction t as [i n r cs IH] using SnapshotTree_children_ind.
  intros ancestors Hanc. simpl.
  unfold has_name_and_no_such_ancestor at 1. simpl. rewrite Hanc, andb_true_r.
  unfold name_is at 1. simpl.
  destruct (String.eqb n snapname) eqn:Hn; simpl.
  - f_equal. rewrite filter_flat_map.
    assert (Hnil : flat_map
              (fun c => List.filter (has_name_and_no_such_ancestor snapname)
                          (subtree_with_ancestors
                             ({| id := i; name := n; snapshot := r;
                                 childSnapshotList := cs |} :: ancestors) c)) cs
              = []).
    { apply flat_map_nil_iff, Forall_forall. intros c _.
      apply nothing_under_a_match. simpl. unfold name_is. simpl. by rewrite Hn. }
    by rewrite Hnil.
  - rewrite filter_flat_map, map_flat_map. apply flat_map_ext_Forall.
    eapply Forall_impl; [exact IH |]. intros c Hc. apply Hc.
    simpl. unfold name_is at 1. simpl. by rewrite Hn.
Qed.

Lemma by_name_topmost T N :
  get_snapshots_by_name_recursively T N = topmost_by_name T N.
Proof.
  unfold get_snapshots_by_name_recursively, topmost_by_name, nodes_with_ancestors.
  rewrite filter_flat_map, map_flat_map. apply flat_map_ext_Forall, Forall_forall.
  intros t _. by apply by_name_step_topmost.
Qed.

Lemma subtree_with_ancestors_nodes t ancestors :
  map snd (subtree_with_ancestors ancestors t) = subtree_nodes t.
Proof.
  revert ancestors.
  induction t as [i n r cs IH] using SnapshotTree_children_ind.
  intros ancestors. simpl. f_equal. rewrite map_flat_map.
  apply flat_map_ext_Forall. eapply Forall_impl; [exact IH |]. intros c Hc. apply Hc.
Qed.

Lemma nodes_with_ancestors_nodes T : map snd (nodes_with_ancestors T) = nodes T.
Proof.
  unfold nodes_with_ancestors, nodes. rewrite map_flat_map.
  apply flat_map_ext_Forall, Forall_forall. intros t _.
  apply subtree_with_ancestors_nodes.
Qed.

(** C1, as the code has it: the name search returns, in the order parents
    first and each as often as the tree has it, the nodes whose name is the
    one sought and none of whose ancestors has that name, which are the
    tested nodes of that name, and no other node; the siblings of a match
    are searched (the search of a sequence is the searches of its parts, one
    after the other), and the empty tree gives the empty sequence.  The
    children of a node whose name matches are not searched. *)
Theorem by_name_returns_tested_matches (T : list SnapshotTree) (N : string) :
  get_snapshots_by_name_recursively T N = topmost_by_name T N
  /\ map snd (nodes_with_ancestors T) = nodes T
  /\ get_snapshots_by_name_recursively T N
     = List.filter (name_is N) (visited (name_is N) T)
  /\ (forall s, In s (get_snapshots_by_name_recursively T N) <->
             tested_by_name N T s /\ name s = N)
  /\ (forall s, In s (get_snapshots_by_name_recursively T N) ->
                In s (nodes T) /\ name s = N)
  /\ (forall T1 T2, get_snapshots_by_name_recursively (T1 ++ T2) N =
                    get_snapshots_by_name_recursively T1 N
                    ++ get_snapshots_by_name_recursively T2 N)
  /\ (forall s rest, name s = N ->
                     get_snapshots_by_name_recursively (s :: rest) N =
                     s :: get_snapshots_by_name_recursively rest N)
  /\ get_snapshots_by_name_recursively [] N = [].
Proof.
  split; [apply by_name_topmost |].
  split; [apply nodes_with_ancestors_nodes |].
  split; [rewrite by_name_walk; apply walk_filter |].
  split; [intros s; apply by_name_spec |].
  split.
  { intros s [H Hs]%by_name_spec. split; [| done].
    by apply tested_by_name_in_nodes in H. }
  split; [intros; apply by_name_app |].
  split; [| reflexivity].
  intros s rest Hs. rewrite by_name_cons.
  apply String.eqb_eq in Hs. by rewrite Hs.
Qed.

(** C1, as the specification states it, fails on a snapshot that lies under
    a snapshot of the same name: it is a node of the tree, its name is the
    one sought, and the search does not return it. *)
Lemma by_name_misses_nested_match :
  In Scenario.inner (nodes Scenario.nested)
  /\ name Scenario.inner = "snap1"
  /\ ~ In Scenario.inner (get_snapshots_by_name_recursively Scenario.nested "snap1")
  /\ get_snapshots_by_name_recursively Scenario.nested "snap1"
     <> find_all_by_name Scenario.nested "snap1".
Proof.
  split; [vm_compute; auto |]. split; [reflexivity |].
  split.
  - vm_compute. intros [H | []]. discriminate H.
  - vm_compute. discriminate.
Qed.

(** Two tests that agree on the nodes of a tree are applied to the same
    nodes in the same order, and select the same ones. *)
Lemma visited_step_ext f g t :
  (forall s, In s (subtree_nodes t) -> f s = g s) ->
  visited_step f t = visited_step g t.
Proof.
  induction t as [i n r cs IH] using SnapshotTree_children_ind.
  intros Hfg. simpl. rewrite <- (Hfg _ (or_introl eq_refl)).
  destruct (f _); [reflexivity |]. f_equal.
  assert (Hcs : forall s, In s (flat_map subtree_nodes cs) -> f s = g s).
  { intros s Hs. apply Hfg. simpl. by right. }
  clear Hfg. induction IH as [|c cs Hc _ IHcs]; simpl; [reflexivity |].
  rewrite Hc, IHcs; [reflexivity | |].
  - intros s Hs. apply Hcs. simpl. apply in_app_iff. by right.
  - intros s Hs. apply Hcs. simpl. apply in_app_iff. by left.
Qed.

Lemma visited_ext f g T :
  (forall s, In s (nodes T) -> f s = g s) -> visited f T = visited g T.
Proof.
  unfold visited, nodes. induction T as [|a rest IH]; simpl; [done |].
  intros Hfg. rewrite (visited_step_ext f g a), IH; [reflexivity | |].
  - intros s Hs. apply Hfg, in_app_iff. by right.
  - intros s Hs. apply Hfg, in_app_iff. by left.
Qed.

Lemma visited_in_nodes f T s : In s (visited f T) -> In s (nodes T).
Proof.
  assert (Hstep : forall t, In s (visited_step f t) -> In s (subtree_nodes t)).
  { induction t as [i n r cs IH] using SnapshotTree_children_ind.
    simpl. intros [-> | H]; [by left | right].
    destruct (f _); [done |].
    induction IH as [|c cs Hc _ IHcs]; simpl in *; [done |].
    apply in_app_iff in H. apply in_app_iff. destruct H; auto. }
  unfold visited, nodes. induction T as [|a rest IH]; simpl; [done |].
  rewrite !in_app_iff. intros [H | H]; auto.
Qed.

(** C6: the id search is the traversal of the name search with the test on
    [id] in place of the test on [name]: both are the shared traversal; the
    id search returns every tested node whose id is the one sought, in the
    order the nodes are tested, however many there are; and where the two
    tests agree on the nodes of the tree, the two searches test the same
    nodes in the same order and return the same sequence. *)
Theorem by_id_same_traversal_as_by_name (T : list SnapshotTree) (I : Z) (N : string) :
  get_snapshots_by_id_recursively T I = walk (id_is I) T
  /\ get_snapshots_by_name_recursively T N = walk (name_is N) T
  /\ get_snapshots_by_id_recursively T I
     = List.filter (id_is I) (visited (id_is I) T)
  /\ (forall s, In s (get_snapshots_by_id_recursively T I) <->
                In s (visited (id_is I) T) /\ id s = I)
  /\ ((forall s, In s (nodes T) -> id_is I s = name_is N s) ->
      visited (id_is I) T = visited (name_is N) T
      /\ get_snapshots_by_id_recursively T I
         = get_snapshots_by_name_recursively T N).
Proof.
  split; [apply by_id_walk |]. split; [apply by_name_walk |].
  split; [rewrite by_id_walk; apply walk_filter |].
  split.
  - intros s. rewrite by_id_walk, walk_filter, filter_In. unfold id_is.
    by rewrite Z.eqb_eq.
  - intros Hagree. split; [by apply visited_ext |].
    rewrite by_id_walk, by_name_walk, !walk_filter.
    rewrite (visited_ext _ _ _ Hagree).
    apply filter_ext_in. intros s Hs. apply Hagree.
    by apply visited_in_nodes in Hs.
Qed.

(** The id search does not stop at one match. *)
Example by_id_returns_every_match :
  get_snapshots_by_id_recursively
    [Scenario.leaf 9 "a"; mkSnapshotTree 1 "b" "snapshot-b" [Scenario.leaf 9 "c"]] 9
  = [Scenario.leaf 9 "a"; Scenario.leaf 9 "c"].
Proof. reflexivity. Qed.

(** ** The constructor and the dispatcher *)

Ltac unfold_py :=
  unfold main, __init__, apply_snapshot_op, snapshot_state_function, snapshot_vm,
    rename_snapshot, get_snapshots_recursively, self_vm, read_vm,
    self_snap_object, try_except_Exception, try_except_TaskError, call,
    fail_json, exit_json, raise, stop, set_result, set_snap_object, set_vm,
    set_vm_id, emit, get_self, bind, ret in *.

(** The check at the head of [apply_snapshot_op], state by state. *)
Lemma target_check_fails srv module s :
  snap_object s = None ->
  bool_decide (state module = absent) || bool_decide (state module = revert)
  || bool_decide (state module = rename) = true ->
  apply_snapshot_op srv module s = (s, inl (FailJson (not_found_msg module s))).
Proof.
  intros Hsnap Hst. unfold_py. by rewrite Hsnap, Hst.
Qed.

(** C3, as the code has it: for [rename], [absent] and [revert], when no
    snapshot is resolved the operation fails with the not-found message, and
    the object is as it was, events included: the dispatch table is not
    built and no collaborator is called. *)
Theorem not_found_before_dispatch (srv : vSphere) (module : Params) (s : Self) :
  state module = rename \/ state module = absent \/ state module = revert ->
  snap_object s = None ->
  apply_snapshot_op srv module s = (s, inl (FailJson (not_found_msg module s))).
Proof.
  intros Hst Hsnap. apply target_check_fails; [exact Hsnap |].
  destruct Hst as [-> | [-> | ->]]; reflexivity.
Qed.

Lemma not_found_before_dispatch_witness :
  let module := Scenario.params absent (Some "snap9") None in
  let s := fst (__init__ (Scenario.server (Some Scenario.tree) (inr None) (inr tt))
                  module (Scenario.start (Some Scenario.tree))) in
  apply_snapshot_op (Scenario.server (Some Scenario.tree) (inr None) (inr tt)) module s
  = (s, inl (FailJson "Couldn't find any snapshots with specified name: snap9 on VM: guest")).
Proof.
  intros module s.
  apply (not_found_before_dispatch
           (Scenario.server (Some Scenario.tree) (inr None) (inr tt)) module s).
  - right; left; reflexivity.
  - reflexivity.
Defined.

(** C3, as the specification states it, fails for [present]: with no
    snapshot resolved the operation does not fail with the not-found
    message, nor with any [fail_json]. *)
Lemma present_not_covered_by_not_found_check :
  let srv := Scenario.server (Some Scenario.tree) (inr None) (inr tt) in
  let module := Scenario.params present (Some "snap9") None in
  let s := fst (__init__ srv module (Scenario.start (Some Scenario.tree))) in
  state module = present
  /\ snap_object s = None
  /\ forall msg, snd (apply_snapshot_op srv module s) <> inl (FailJson msg).
Proof.
  intros srv module s. split; [reflexivity |]. split; [reflexivity |].
  intros msg. vm_compute. discriminate.
Qed.

(** The constructor calls nothing that changes the snapshots. *)
Lemma init_no_mutation srv module vm0 :
  forallb (fun e => negb (is_mutation e))
          (trace (fst (__init__ srv module (after_super vm0)))) = true.
Proof.
  unfold_py. unfold after_super. simpl.
  repeat (case_match; simpl in *; simplify_eq; try reflexivity).
Qed.

Ltac py_cases :=
  repeat (case_match; simpl in *; simplify_eq; try done).

(** C2: in the constructor, when the machine has a snapshot tree and the
    search returns the sequence [l], the resolved snapshot is the snapshot of
    the one node of [l] when [l] has exactly one node, and is none otherwise;
    an empty [l] and an [l] of several nodes leave the same resolved
    snapshot, none, and for the states that need a target both end in the
    same not-found failure. *)
Theorem resolved_iff_exactly_one_match
    (srv : vSphere) (module : Params) (s0 : Self)
    (v : VirtualMachine) (roots l : list SnapshotTree) :
  vm s0 = Some v ->
  vm_snapshot v = Some roots ->
  snd (get_snapshots_recursively module s0) = inr (Some l) ->
  (forall o, snap_object (fst (__init__ srv module s0)) = Some o <->
             exists s, l = [s] /\ o = snapshot s)
  /\ (length l <> 1%nat -> snap_object (fst (__init__ srv module s0)) = None)
  /\ (length l <> 1%nat ->
      state module = rename \/ state module = absent \/ state module = revert ->
      forall s1, __init__ srv module s0 = (s1, inr tt) ->
      main srv module s0 = (s1, inl (FailJson (not_found_msg module s1)))).
Proof.
  intros Hvm Hsnap Hsearch.
  assert (Hobj : snap_object (fst (__init__ srv module s0))
                 = match l with [s] => Some (snapshot s) | _ => None end).
  { revert Hsearch. unfold_py. simpl. rewrite Hvm. simpl. rewrite Hsnap. simpl.
    destruct (if_str (snapshot_name module)); simpl.
    - rewrite Hvm; simpl. rewrite Hsnap; simpl. intros [= <-].
      py_cases.
    - destruct (if_int (snapshot_id module)); simpl; [| done].
      destruct (bool_decide (state module = absent) || bool_decide (state module = revert));
        simpl; [| done].
      rewrite Hvm; simpl. rewrite Hsnap; simpl. intros [= <-].
      py_cases. }
  split; [| split].
  - intros o. rewrite Hobj. destruct l as [|a [|b l]]; split;
      try (intros [= <-]; eauto); try (intros [s [[=] ?]]; subst; done); done.
  - intros Hlen. rewrite Hobj. destruct l as [|a [|b l]]; simpl in *; done.
  - intros Hlen Hst s1 Hinit.
    assert (Hnone : snap_object s1 = None).
    { change s1 with (fst (s1, @inr signal unit tt)). rewrite <- Hinit, Hobj.
      destruct l as [|a [|b l]]; simpl in *; done. }
    unfold main, bind at 1. rewrite Hinit.
    unfold bind at 1. rewrite (target_check_fails srv module s1 Hnone); [done |].
    destruct Hst as [-> | [-> | ->]]; reflexivity.
Qed.

Lemma resolved_iff_exactly_one_match_witness :
  snap_object (fst (__init__ (Scenario.server (Some Scenario.tree) (inr None) (inr tt))
                      (Scenario.params rename (Some "snap3") None)
                      (Scenario.start (Some Scenario.tree))))
  = Some "snapshot-snap3" <->
  exists s, [Scenario.leaf 5 "snap3"] = [s] /\ "snapshot-snap3" = snapshot s.
Proof.
  apply (resolved_iff_exactly_one_match
           (Scenario.server (Some Scenario.tree) (inr None) (inr tt))
           (Scenario.params rename (Some "snap3") None)
           (Scenario.start (Some Scenario.tree))
           (Scenario.machine (Some Scenario.tree)) Scenario.tree
           [Scenario.leaf 5 "snap3"]); reflexivity.
Defined.

(** The scenario of the specification with two siblings named alike: the
    removal fails with the not-found message and picks neither. *)
Example twins_are_not_found :
  snd (main (Scenario.server (Some Scenario.twins) (inr None) (inr tt))
            (Scenario.params absent (Some "snap1") None)
            (Scenario.start (Some Scenario.twins)))
  = inl (FailJson "Couldn't find any snapshots with specified name: snap1 on VM: guest").
Proof. reflexivity. Qed.

Lemma before_assignment_spec t pre :
  before_assignment t = Some pre <->
  (exists v post, t = pre ++ EvSetVm v :: post)
  /\ forall v, ~ In (EvSetVm v) pre.
Proof.
  revert pre. induction t as [|e t IH]; intros pre; simpl.
  - split; [done |]. intros [(v & post & H) _]. by destruct pre.
  - assert (Hcons : option_map (cons e) (before_assignment t) = Some pre <->
                    exists pre', pre = e :: pre' /\ before_assignment t = Some pre').
    { destruct (before_assignment t) as [p|]; simpl; split.
      - intros [= <-]. eauto.
      - intros (pre' & -> & [= ->]). done.
      - done.
      - intros (pre' & _ & [=]). }
    assert (Hgen : (forall v, e <> EvSetVm v) ->
                   option_map (cons e) (before_assignment t) = Some pre <->
                   (exists v post, e :: t = pre ++ EvSetVm v :: post)
                   /\ forall v, ~ In (EvSetVm v) pre).
    { intros He. rewrite Hcons. split.
      - intros (pre' & -> & [(v & post & ->) Hno]%IH). split.
        + by exists v, post.
        + intros v' [H | H]; [by apply (He v') | by apply (Hno v')].
      - intros [(v & post & Heq) Hno]. destruct pre as [|e' pre'].
        + simpl in Heq. injection Heq as -> _. by destruct (He v).
        + simpl in Heq. injection Heq as <- ->. exists pre'. split; [done |].
          apply IH. split; [by exists v, post |].
          intros v' H. apply (Hno v'). by right. }
    destruct e; try (apply Hgen; intros v'; discriminate).
    split.
    + intros [= <-]. split; [by eexists _, _ | intros ? []].
    + intros [(v' & post & Heq) Hno]. destruct pre as [|e' pre']; [done |].
      simpl in Heq. injection Heq as <- _. destruct (Hno v). by left.
Qed.

(** C5: in the constructor, whatever [self.vm] holds when it starts and
    whatever the VM lookup returns, the events before the first assignment of
    [self.vm] are, in this order, a read of [self.vm], the reads and the
    search of the resolution, the assignment of the resolved snapshot, and
    the VM lookup; and the resolved snapshot is the same whatever the server
    of the lookup is: it comes from what [self.vm] held before. *)
Theorem resolution_precedes_vm_assignment
    (srv : vSphere) (module : Params) (vm0 : option VirtualMachine) :
  (forall pre,
     before_assignment (trace (fst (__init__ srv module (after_super vm0)))) = Some pre ->
     exists mid,
       pre = EvReadVm :: mid
               ++ [EvSetSnapObject
                     (snap_object (fst (__init__ srv module (after_super vm0))));
                   EvGetVm]
       /\ forallb (fun e => match e with
                            | EvReadVm | EvSearchByName _ | EvSearchById _ => true
                            | _ => false
                            end) mid = true)
  /\ (forall srv',
        snap_object (fst (__init__ srv' module (after_super vm0)))
        = snap_object (fst (__init__ srv module (after_super vm0)))).
Proof.
  split.
  - unfold_py. unfold after_super. simpl.
    intros pre. py_cases; intros [= <-];
      try (by exists []); try (by eexists [_; _]).
  - intros srv'. unfold_py. unfold after_super. simpl. py_cases.
Qed.

(** A run of the constructor that reaches the assignment of [self.vm]. *)
Example resolution_precedes_vm_assignment_run :
  before_assignment
    (trace (fst (__init__ (Scenario.server (Some Scenario.tree) (inr None) (inr tt))
                   (Scenario.params rename (Some "snap3") None)
                   (Scenario.start (Some Scenario.tree)))))
  = Some [EvReadVm; EvReadVm; EvSearchByName "snap3";
          EvSetSnapObject (Some "snapshot-snap3"); EvGetVm].
Proof. reflexivity. Qed.

(** When nothing has set [self.vm], the constructor raises on its first
    read, before the VM lookup. *)
Lemma unset_vm_raises srv module :
  __init__ srv module (after_super None)
  = ({| result := {| changed := false; renamed := false; snapshot_results := None |};
        snap_object := None; vm := None; vm_id := Py.VNone; trace := [EvReadVm] |},
     inl (Raise (Py.AttributeError "no attribute 'snapshot'"))).
Proof. reflexivity. Qed.

(** The order of the selectors in [get_snapshots_recursively]. *)
Lemma name_selector_first module s v roots snapname :
  vm s = Some v -> vm_snapshot v = Some roots ->
  if_str (snapshot_name module) = Some snapname ->
  snd (get_snapshots_recursively module s)
  = inr (Some (get_snapshots_by_name_recursively roots snapname)).
Proof.
  intros Hvm Hsnap Hname. unfold_py. rewrite Hname. simpl.
  rewrite Hvm. simpl. by rewrite Hsnap.
Qed.

Lemma id_selector_for_absent_and_revert module s v roots snapid :
  vm s = Some v -> vm_snapshot v = Some roots ->
  if_str (snapshot_name module) = None ->
  if_int (snapshot_id module) = Some snapid ->
  state module = absent \/ state module = revert ->
  snd (get_snapshots_recursively module s)
  = inr (Some (get_snapshots_by_id_recursively roots snapid)).
Proof.
  intros Hvm Hsnap Hname Hid Hst. unfold_py. rewrite Hname, Hid. simpl.
  destruct Hst as [-> | ->]; simpl; rewrite Hvm; simpl; by rewrite Hsnap.
Qed.

Lemma no_search_returns_None module s :
  if_str (snapshot_name module) = None ->
  if_int (snapshot_id module) = None
  \/ (state module <> absent /\ state module <> revert) ->
  get_snapshots_recursively module s = (s, inr None).
Proof.
  intros Hname Hid. unfold_py. rewrite Hname.
  destruct Hid as [-> | [Ha Hr]]; [done |].
  destruct (if_int _); [| done].
  by rewrite !bool_decide_eq_false_2.
Qed.

(** When the search is skipped on a machine that has snapshots, the
    constructor raises [TypeError] on the length of [None]. *)
Lemma skipped_search_raises srv module s v roots :
  vm s = Some v -> vm_snapshot v = Some roots ->
  if_str (snapshot_name module) = None ->
  if_int (snapshot_id module) = None
  \/ (state module <> absent /\ state module <> revert) ->
  snd (__init__ srv module s)
  = inl (Raise (Py.TypeError "object of type 'NoneType' has no len()")).
Proof.
  intros Hvm Hsnap Hname Hid.
  unfold __init__.
  unfold bind at 1. unfold set_result at 1.
  unfold bind at 1. unfold bind at 1.
  unfold self_vm, read_vm, bind at 1 2 3, emit, get_self, ret. simpl.
  rewrite Hvm. simpl. rewrite Hsnap.
  unfold bind at 1. rewrite (no_search_returns_None module _ Hname Hid).
  reflexivity.
Qed.

(** C4, at an input of the kind the claim speaks of: an id selector with
    state [rename], on a machine that has snapshots.  No search is made, and
    the constructor does not get through resolution: it raises [TypeError]
    before the VM lookup. *)
Theorem id_selector_outside_absent_revert_raises (srv : vSphere) :
  __init__ srv (Scenario.params rename None (Some 5))
           (Scenario.start (Some Scenario.tree))
  = ({| result := {| changed := false; renamed := false; snapshot_results := None |};
        snap_object := None; vm := Some (Scenario.machine (Some Scenario.tree));
        vm_id := Py.VNone; trace := [EvReadVm] |},
     inl (Raise (Py.TypeError "object of type 'NoneType' has no len()"))).
Proof. reflexivity. Qed.

(** The same happens to [remove_all] without a selector, which the check
    at the end of the constructor means to let through. *)
Example remove_all_without_selector_raises (srv : vSphere) :
  snd (__init__ srv (Scenario.params remove_all None None)
                (Scenario.start (Some Scenario.tree)))
  = inl (Raise (Py.TypeError "object of type 'NoneType' has no len()")).
Proof. reflexivity. Qed.

(** When the constructor returns, [self.vm] holds a machine and
    [self.result] is as it was set at the start. *)
Lemma init_returns srv module s0 s1 :
  __init__ srv module s0 = (s1, inr tt) ->
  (exists v, vm s1 = Some v)
  /\ result s1 = {| changed := false; renamed := false; snapshot_results := None |}.
Proof.
  unfold_py. simpl. py_cases; intros [= <-]; simpl; eauto.
Qed.

(** C7: when the state is [present] and the constructor has resolved a
    snapshot, the run exits with [changed=False] and the message that the
    name already exists, and no call that creates or changes a snapshot is
    made. *)
Theorem present_existing_snapshot_is_noop
    (srv : vSphere) (module : Params) (vm0 : option VirtualMachine)
    (s1 : Self) (o : moref) :
  state module = present ->
  __init__ srv module (after_super vm0) = (s1, inr tt) ->
  snap_object s1 = Some o ->
  exists s2,
    main srv module (after_super vm0) = (s2, inl (ExitJson (already_exists module)))
    /\ forallb (fun e => negb (is_mutation e)) (trace s2) = true.
Proof.
  intros Hst Hinit Hsnap.
  destruct (init_returns _ _ _ _ Hinit) as [[v Hvm] _].
  pose proof (init_no_mutation srv module vm0) as Hquiet.
  rewrite Hinit in Hquiet. simpl in Hquiet.
  unfold main, bind at 1. rewrite Hinit.
  destruct s1 as [r so vo vid tr]. simpl in *. subst so vo.
  unfold_py. rewrite Hst. cbn.
  eexists. split; [reflexivity |]. cbn.
  rewrite <- app_assoc, forallb_app. by rewrite Hquiet.
Qed.

Lemma present_existing_snapshot_is_noop_witness :
  exists s2,
    main (Scenario.server (Some Scenario.tree) (inr None) (inr tt))
         (Scenario.params present (Some "snap3") None)
         (after_super (Some (Scenario.machine (Some Scenario.tree))))
    = (s2, inl (ExitJson
                  {| x_changed := false; x_renamed := None;
                     x_msg := Some "Snapshot named [snap3] already exists";
                     x_snapshot_results := None |}))
    /\ forallb (fun e => negb (is_mutation e)) (trace s2) = true.
Proof.
  eapply (present_existing_snapshot_is_noop
            (Scenario.server (Some Scenario.tree) (inr None) (inr tt))
            (Scenario.params present (Some "snap3") None)
            (Some (Scenario.machine (Some Scenario.tree)))).
  - reflexivity.
  - reflexivity.
  - reflexivity.
Defined.





(** A task that fails ends the run with [fail_json] and the text of the
    error, for [rename] too. *)
Example failed_task_fails_the_run :
  snd (main (Scenario.server (Some Scenario.tree) (inr (Some "task-rename"))
                             (inl (Py.TaskError "task failed")))
            (Scenario.params rename (Some "snap3") None)
            (Scenario.start (Some Scenario.tree)))
  = inl (FailJson "task failed")
  /\ snd (main (Scenario.server (Some Scenario.tree) (inr None)
                                (inl (Py.TaskError "task failed")))
               (Scenario.params absent None (Some 5))
               (Scenario.start (Some Scenario.tree)))
     = inl (FailJson "task failed").
Proof. split; reflexivity. Qed.

(** A task that succeeds gives [changed=True] and the listing. *)
Example awaited_task_exits_with_listing :
  snd (main (Scenario.server (Some Scenario.tree) (inr None) (inr tt))
            (Scenario.params absent None (Some 5))
            (Scenario.start (Some Scenario.tree)))
  = inl (ExitJson {| x_changed := true; x_renamed := Some false; x_msg := None;
                     x_snapshot_results := Some Scenario.listing |}).
Proof. reflexivity. Qed.

(** ** The REST client builder *)

Section Builder.

Context (HAS_URLLIB3 : bool) (fresh_session : Rest.Session)
        (create_vsphere_client :
           string -> Py.value -> Py.value -> Rest.Session
           -> Py.exn + option Rest.client).

(** C9, as the code has it: when hostname, username or password is missing
    or empty, [connect_to_api] raises [ApiAccessError], the class of the
    connection failures, and nothing has happened before: no session, no
    connection attempt.  The message is the one of the first of the three
    that is missing, and the three messages differ from one another. *)
Theorem missing_parameter_raises_before_connecting
    (connection_params : gmap string Py.value) :
  Py.truthy (Rest.get connection_params "hostname" Py.VNone) = false
  \/ Py.truthy (Rest.get connection_params "username" Py.VNone) = false
  \/ Py.truthy (Rest.get connection_params "password" Py.VNone) = false ->
  exists msg,
    Rest.connect_to_api HAS_URLLIB3 fresh_session create_vsphere_client
                        connection_params
    = ([], inl (Py.ApiAccessError msg))
    /\ (Py.truthy (Rest.get connection_params "hostname" Py.VNone) = false ->
        msg = Rest.hostname_missing)
    /\ (Py.truthy (Rest.get connection_params "hostname" Py.VNone) = true ->
        Py.truthy (Rest.get connection_params "username" Py.VNone) = false ->
        msg = Rest.username_missing)
    /\ (Py.truthy (Rest.get connection_params "hostname" Py.VNone) = true ->
        Py.truthy (Rest.get connection_params "username" Py.VNone) = true ->
        msg = Rest.password_missing)
    /\ Rest.hostname_missing <> Rest.username_missing
    /\ Rest.hostname_missing <> Rest.password_missing
    /\ Rest.username_missing <> Rest.password_missing.
Proof.
  intros Hmiss. unfold Rest.connect_to_api.
  unfold Rest.__validate_required_connection_params.
  destruct (Py.truthy (Rest.get connection_params "hostname" Py.VNone)); simpl.
  2: { eexists; repeat split; done. }
  destruct (Py.truthy (Rest.get connection_params "username" Py.VNone)); simpl.
  2: { eexists; repeat split; done. }
  destruct (Py.truthy (Rest.get connection_params "password" Py.VNone)); simpl.
  2: { eexists; repeat split; done. }
  destruct Hmiss as [? | [? | ?]]; done.
Qed.

(** With the three parameters present, a failure of the connection raises
    an error of the same class. *)
Lemma connection_failure_raises_ApiAccessError e :
  exists t msg,
    Rest.connect_to_api HAS_URLLIB3 fresh_session (fun _ _ _ _ => inl e)
                        Scenario.complete
    = (t, inl (Py.ApiAccessError msg)).
Proof.
  unfold Rest.connect_to_api. vm_compute. destruct e; eauto.
Qed.

(** When one of the three proxy parameters is missing, the session is left
    as it is. *)
Lemma proxies_unchanged_without_all_three session host port protocol :
  Py.truthy host = false \/ Py.truthy port = false \/ Py.truthy protocol = false ->
  Rest.__configure_session_proxies session host port protocol = ([], inr session).
Proof.
  intros H. unfold Rest.__configure_session_proxies. simpl.
  destruct H as [-> | [-> | ->]]; simpl; rewrite ?andb_false_r; reflexivity.
Qed.

(** When the three are given, the format of lines 133-134 has three
    conversions for one argument, and raises. *)
Lemma proxies_raise_with_all_three session host port protocol :
  Py.truthy host = true -> Py.truthy port = true -> Py.truthy protocol = true ->
  Rest.__configure_session_proxies session host port protocol
  = ([], inl (Py.TypeError "not enough arguments for format string")).
Proof.
  intros Hh Hp Hpr. unfold Rest.__configure_session_proxies. simpl.
  rewrite Hh, Hp, Hpr. reflexivity.
Qed.

(** C10, at connection parameters with the three proxy parameters: the
    proxies are not configured; [connect_to_api] raises [TypeError] after
    the session is made, and the connection is not attempted. *)
Theorem proxy_parameters_raise_TypeError :
  Rest.connect_to_api HAS_URLLIB3 fresh_session create_vsphere_client
                      Scenario.with_proxy
  = ([Rest.EvNewSession],
     inl (Py.TypeError "not enough arguments for format string")).
Proof. reflexivity. Qed.

End Builder.

Lemma missing_parameter_raises_before_connecting_witness :
  exists msg,
    Rest.connect_to_api true Scenario.session0 (fun _ _ _ _ => inr (Some "client"))
                        (<["username" := Py.VStr ""]> Scenario.complete)
    = ([], inl (Py.ApiAccessError msg))
    /\ msg = Rest.username_missing.
Proof.
  destruct (missing_parameter_raises_before_connecting
              true Scenario.session0 (fun _ _ _ _ => inr (Some "client"))
              (<["username" := Py.VStr ""]> Scenario.complete))
    as (msg & Hrun & _ & Huser & _).
  - right; left; reflexivity.
  - exists msg. split; [exact Hrun |]. apply Huser; reflexivity.
Defined.

(** C9, as the specification states it, fails: the error for a missing
    hostname is an [ApiAccessError], the class of the error that a failed
    connection raises. *)
Lemma missing_parameter_error_is_not_a_class_of_its_own :
  exists e e',
    snd (Rest.connect_to_api true Scenario.session0
           (fun _ _ _ _ => inr (Some "client")) ∅) = inl e
    /\ snd (Rest.connect_to_api true Scenario.session0
              (fun _ _ _ _ => inl (Py.OtherException "connection refused"))
              Scenario.complete) = inl e'
    /\ Py.class_name e = "ApiAccessError"
    /\ Py.class_name e = Py.class_name e'.
Proof. eexists _, _. repeat split. Qed.

(** * Further properties of the code *)

(** ** The searches, on the whole tree *)

Lemma walk_step_nil test t :
  walk_step test t = [] <-> forall s, In s (subtree_nodes t) -> test s = false.
Proof.
  induction t as [i n r cs IH] using SnapshotTree_children_ind. simpl.
  destruct (test _) eqn:Ht.
  - split; [discriminate |]. intros H. rewrite (H _ (or_introl eq_refl)) in Ht.
    discriminate.
  - rewrite flat_map_nil_iff. split.
    + intros Hnil s [<- | Hin]; [done |].
      apply in_flat_map in Hin as (c & Hc & Hs).
      rewrite Forall_forall in IH, Hnil.
      apply (IH c (proj2 (list_elem_of_In _ _) Hc)); [| done].
      apply Hnil. by apply list_elem_of_In.
    + intros H. apply Forall_forall. intros c Hc%list_elem_of_In.
      rewrite Forall_forall in IH. apply (IH c (proj2 (list_elem_of_In _ _) Hc)).
      intros s Hs. apply H. right. apply in_flat_map. eauto.
Qed.

Lemma walk_nil test T :
  walk test T = [] <-> forall s, In s (nodes T) -> test s = false.
Proof.
  unfold walk, nodes. rewrite flat_map_nil_iff, Forall_forall. split.
  - intros H s (t & Ht & Hs)%in_flat_map.
    apply (proj1 (walk_step_nil test t)); [| done].
    apply H. by apply list_elem_of_In.
  - intros H t Ht%list_elem_of_In. apply walk_step_nil.
    intros s Hs. apply H, in_flat_map. eauto.
Qed.

(** X1: a search finds nothing exactly when no node of the tree, at any
    depth, has the name (the id) sought: though the children of a match are
    not searched, no name and no id of the tree is missed altogether. *)
Theorem search_empty_iff_absent (T : list SnapshotTree) (N : string) (I : Z) :
  (get_snapshots_by_name_recursively T N = [] <->
   forall s, In s (nodes T) -> name s <> N)
  /\ (get_snapshots_by_id_recursively T I = [] <->
      forall s, In s (nodes T) -> id s <> I).
Proof.
  rewrite by_name_walk, by_id_walk, !walk_nil. split.
  - split; intros H s Hs; specialize (H s Hs); unfold name_is in *.
    + by apply String.eqb_neq.
    + by apply String.eqb_neq.
  - split; intros H s Hs; specialize (H s Hs); unfold id_is in *.
    + by apply Z.eqb_neq.
    + by apply Z.eqb_neq.
Qed.

Lemma walk_step_sublist test t : walk_step test t `sublist_of` subtree_nodes t.
Proof.
  induction t as [i n r cs IH] using SnapshotTree_children_ind. simpl.
  destruct (test _).
  - apply sublist_skip, sublist_nil_l.
  - apply sublist_cons.
    induction IH as [|c cs Hc _ IHcs]; simpl; [done |]. by apply sublist_app.
Qed.

Lemma walk_sublist test T : walk test T `sublist_of` nodes T.
Proof.
  unfold walk, nodes. induction T as [|t T IH]; simpl; [done |].
  apply sublist_app; [apply walk_step_sublist | done].
Qed.

(** X2: what a search returns is a subsequence of the nodes of the tree
    taken parents first: its nodes come in that order, each as often as the
    tree has it. *)
Theorem search_results_in_preorder (T : list SnapshotTree) (N : string) (I : Z) :
  get_snapshots_by_name_recursively T N `sublist_of` nodes T
  /\ get_snapshots_by_id_recursively T I `sublist_of` nodes T.
Proof.
  rewrite by_name_walk, by_id_walk. split; apply walk_sublist.
Qed.

(** X3: in a tree whose ids are all different, the id search returns one
    node at most. *)
Theorem by_id_unique_ids_at_most_one (T : list SnapshotTree) (I : Z) :
  NoDup (id <$> nodes T) ->
  (length (get_snapshots_by_id_recursively T I) <= 1)%nat.
Proof.
  intros Hnd.
  assert (Hsub : (id <$> get_snapshots_by_id_recursively T I)
                   `sublist_of` (id <$> nodes T)).
  { apply fmap_sublist. rewrite by_id_walk. apply walk_sublist. }
  assert (Hres : NoDup (id <$> get_snapshots_by_id_recursively T I))
    by (eapply sublist_NoDup; eauto).
  assert (Hall : forall s, In s (get_snapshots_by_id_recursively T I) -> id s = I).
  { intros s Hs. rewrite by_id_walk, walk_filter in Hs.
    apply filter_In in Hs as [_ Hs]. by apply Z.eqb_eq in Hs. }
  destruct (get_snapshots_by_id_recursively T I) as [|a [|b l]]; simpl; [lia | lia |].
  exfalso. rewrite !fmap_cons in Hres.
  rewrite (Hall a), (Hall b) in Hres by (simpl; auto).
  apply NoDup_cons in Hres as [Hnot _]. apply Hnot. by left.
Qed.

Lemma by_id_unique_ids_at_most_one_witness :
  (length (get_snapshots_by_id_recursively Scenario.tree 5) <= 1)%nat.
Proof.
  apply (by_id_unique_ids_at_most_one Scenario.tree 5).
  apply (bool_decide_unpack _). vm_compute. exact I.
Defined.

Lemma filter_all_false {A} (f : A -> bool) (l : list A) :
  (forall x, In x l -> f x = false) -> List.filter f l = [].
Proof.
  induction l as [|a l IH]; simpl; [done |]. intros H.
  rewrite (H a (or_introl eq_refl)). apply IH. intros x Hx. apply H. by right.
Qed.

Lemma walk_step_complete test t :
  (forall s, In s (subtree_nodes t) -> test s = true ->
             forall d, In d (nodes (childSnapshotList s)) -> test d = false) ->
  walk_step test t = List.filter test (subtree_nodes t).
Proof.
  induction t as [i n r cs IH] using SnapshotTree_children_ind.
  intros Hflat. simpl. destruct (test _) eqn:Ht.
  - f_equal. symmetry. apply filter_all_false.
    intros d Hd. by apply (Hflat _ (or_introl eq_refl) Ht).
  - assert (Hcs : forall c, In c cs ->
                  forall s, In s (subtree_nodes c) -> test s = true ->
                  forall d, In d (nodes (childSnapshotList s)) -> test d = false).
    { intros c Hc s Hs. apply Hflat. right. apply in_flat_map. eauto. }
    clear Hflat Ht. induction IH as [|c cs Hc _ IHcs]; simpl; [done |].
    rewrite List.filter_app, Hc, IHcs; [done | |].
    + intros c' Hc'. apply Hcs. by right.
    + apply Hcs. by left.
Qed.

(** X4: when no node whose name is the one sought lies under another such
    node, the name search returns every node of the tree with that name, at
    any depth, in the order parents first. *)
Theorem by_name_complete_without_nested_match (T : list SnapshotTree) (N : string) :
  (forall s, In s (nodes T) -> name s = N ->
             forall d, In d (nodes (childSnapshotList s)) -> name d <> N) ->
  get_snapshots_by_name_recursively T N = List.filter (name_is N) (nodes T).
Proof.
  intros Hflat. rewrite by_name_walk. unfold walk, nodes in *.
  induction T as [|t T IH]; simpl; [done |].
  rewrite List.filter_app, IH, walk_step_complete; [done | |].
  - intros s Hs Hname d Hd. apply String.eqb_neq.
    apply (Hflat s); [apply in_flat_map; exists t; split; [by left | done] | | done].
    by apply String.eqb_eq.
  - intros s Hs. apply Hflat. simpl. apply in_app_iff. by right.
Qed.

Lemma by_name_complete_without_nested_match_witness :
  get_snapshots_by_name_recursively Scenario.tree "snap3"
  = List.filter (name_is "snap3") (nodes Scenario.tree).
Proof.
  apply (by_name_complete_without_nested_match Scenario.tree "snap3").
  intros s Hs Hname d Hd. vm_compute in Hs.
  destruct Hs as [<- | [<- | [<- | []]]]; vm_compute in Hd; done.
Defined.

(** ** The constructor *)

(** X5: on a machine that has no snapshot, the constructor makes no
    search, whatever the selectors are: the resolved snapshot is none and
    the VM lookup comes next. *)
Theorem no_snapshot_no_search
    (srv : vSphere) (module : Params) (s0 : Self) (v : VirtualMachine) :
  vm s0 = Some v ->
  vm_snapshot v = None ->
  snap_object (fst (__init__ srv module s0)) = None
  /\ exists rest,
       trace (fst (__init__ srv module s0))
       = trace s0 ++ [EvReadVm; EvSetSnapObject None; EvGetVm] ++ rest
       /\ forallb (fun e => negb (is_search e)) rest = true.
Proof.
  intros Hvm Hsnap. unfold_py. simpl. rewrite Hvm. simpl. rewrite Hsnap. simpl.
  py_cases; (split; [done |]); rewrite <- ?app_assoc; simpl;
    eexists; (split; [reflexivity | done]).
Qed.

Lemma no_snapshot_no_search_witness :
  snap_object (fst (__init__ (Scenario.server None (inr None) (inr tt))
                      (Scenario.params absent (Some "snap1") None)
                      (Scenario.start None))) = None.
Proof.
  apply (no_snapshot_no_search (Scenario.server None (inr None) (inr tt))
           (Scenario.params absent (Some "snap1") None)
           (Scenario.start None) (Scenario.machine None)); reflexivity.
Defined.

(** X6: the outcome of the VM lookup.  Once the constructor reaches the
    lookup: a [fail_json] or an exception of the lookup ends the run as it
    is; an empty list raises [IndexError]; a first element [None] fails with
    the message that names the machine by its uuid, or else its name, or
    else its moid; otherwise [self.vm] becomes the first element. *)
Theorem vm_lookup_outcome
    (srv : vSphere) (module : Params) (vm0 : option VirtualMachine) :
  In EvGetVm (trace (fst (__init__ srv module (after_super vm0)))) ->
  match get_vm_using_params srv module with
  | LookupFailed msg =>
      snd (__init__ srv module (after_super vm0)) = inl (FailJson msg)
  | LookupRaised e =>
      snd (__init__ srv module (after_super vm0)) = inl (Raise e)
  | Found [] =>
      snd (__init__ srv module (after_super vm0))
      = inl (Raise (Py.IndexError "list index out of range"))
  | Found (None :: _) =>
      snd (__init__ srv module (after_super vm0))
      = inl (FailJson
               ("Unable to manage snapshots for non-existing VM "
                  +:+ Py.str (Py.or_ (Py.or_ (of_str (uuid module))
                                             (of_str (vm_name module)))
                                     (of_str (moid module)))))
  | Found (Some v :: _) =>
      vm (fst (__init__ srv module (after_super vm0))) = Some v
  end.
Proof.
  unfold_py. unfold after_super. simpl.
  py_cases; simpl; intros Hin; try done;
    repeat (destruct Hin as [Hin | Hin]; [discriminate Hin |]); destruct Hin.
Qed.

Lemma vm_lookup_outcome_witness :
  vm (fst (__init__ (Scenario.server (Some Scenario.tree) (inr None) (inr tt))
             (Scenario.params absent (Some "snap1") None)
             (after_super (Some (Scenario.machine (Some Scenario.tree))))))
  = Some (Scenario.machine (Some Scenario.tree)).
Proof.
  apply (vm_lookup_outcome (Scenario.server (Some Scenario.tree) (inr None) (inr tt))
           (Scenario.params absent (Some "snap1") None)
           (Some (Scenario.machine (Some Scenario.tree)))).
  vm_compute. auto 10.
Defined.

(** X7: the check of the selectors at the end of the constructor.  On a
    machine without snapshot that the lookup finds again, a run with neither
    a name nor an id (an empty name and the id 0 count as none) and a state
    other than [remove_all] fails with the message that asks for
    [snapshot_name], and nothing is changed on the server. *)
Theorem missing_selector_fails
    (srv : vSphere) (module : Params) (v0 v : VirtualMachine)
    (others : list (option VirtualMachine)) :
  vm_snapshot v0 = None ->
  get_vm_using_params srv module = Found (Some v :: others) ->
  Py.truthy (Py.or_ (of_str (snapshot_name module)) (of_int (snapshot_id module)))
  = false ->
  state module <> remove_all ->
  snd (main srv module (after_super (Some v0)))
  = inl (FailJson ("snapshot_name param required when state is '"
                     +:+ state_str (state module) +:+ "'"))
  /\ forallb (fun e => negb (is_mutation e))
             (trace (fst (main srv module (after_super (Some v0))))) = true.
Proof.
  intros Hsnap Hfound Hsel Hst.
  unfold_py. unfold after_super. simpl. rewrite Hsnap. simpl. rewrite Hfound. simpl.
  rewrite Hsel. simpl. rewrite bool_decide_eq_false_2 by done. simpl. done.
Qed.

Lemma missing_selector_fails_witness :
  snd (main (Scenario.server None (inr None) (inr tt))
            (Scenario.params revert (Some "") (Some 0))
            (after_super (Some (Scenario.machine None))))
  = inl (FailJson "snapshot_name param required when state is 'revert'").
Proof.
  apply (missing_selector_fails (Scenario.server None (inr None) (inr tt))
           (Scenario.params revert (Some "") (Some 0))
           (Scenario.machine None) (Scenario.machine None) []);
    [reflexivity | reflexivity | reflexivity | discriminate].
Defined.

(** ** The dispatcher *)

(** X8: with no resolved snapshot, [present] and [remove_all] do not reach
    the server: building the dispatch table reads
    [self.snap_object.RevertToSnapshot_Task] and raises [AttributeError],
    the object being as it was. *)
Theorem dispatch_table_needs_resolved_snapshot
    (srv : vSphere) (module : Params) (s : Self) :
  snap_object s = None ->
  state module = present \/ state module = remove_all ->
  apply_snapshot_op srv module s
  = (s, inl (Raise (Py.AttributeError
                      "'NoneType' object has no attribute 'RevertToSnapshot_Task'"))).
Proof.
  intros Hsnap Hst. unfold_py. rewrite Hsnap.
  destruct Hst as [-> | ->]; simpl; rewrite Hsnap; reflexivity.
Qed.

Lemma dispatch_table_needs_resolved_snapshot_witness :
  snd (apply_snapshot_op (Scenario.server None (inr None) (inr tt))
         (Scenario.params remove_all None None)
         (fst (__init__ (Scenario.server None (inr None) (inr tt))
                 (Scenario.params remove_all None None) (Scenario.start None))))
  = inl (Raise (Py.AttributeError
                  "'NoneType' object has no attribute 'RevertToSnapshot_Task'")).
Proof.
  rewrite (dispatch_table_needs_resolved_snapshot
             (Scenario.server None (inr None) (inr tt))
             (Scenario.params remove_all None None)
             (fst (__init__ (Scenario.server None (inr None) (inr tt))
                     (Scenario.params remove_all None None) (Scenario.start None))));
    [reflexivity | reflexivity | right; reflexivity].
Defined.

(** X9: creation asks for a memory dump and for quiescing only where the
    machine supports them.  When no snapshot is resolved, [snapshot_vm]
    makes one [CreateSnapshot] call, with the name and the description of the
    parameters, each flag being the parameter and the capability of the
    machine together; before it come only reads of [self.vm]. *)
Theorem create_flags_follow_capabilities
    (srv : vSphere) (module : Params) (s : Self) (v : VirtualMachine) :
  snap_object s = None ->
  vm s = Some v ->
  exists reads,
    trace (fst (snapshot_vm srv module s))
    = trace s ++ reads
        ++ [EvCreateSnapshot (of_str (snapshot_name module)) (description module)
              (memory_dump module && memorySnapshotsSupported v)
              (quiesce module && quiescedSnapshotsSupported v)]
    /\ Forall (eq EvReadVm) reads.
Proof.
  intros Hsnap Hvm. unfold_py. rewrite Hsnap. simpl.
  destruct (memory_dump module), (quiesce module); simpl; rewrite ?Hvm; simpl;
    rewrite ?Hvm; simpl; rewrite ?Hvm; simpl;
    py_cases; rewrite <- ?app_assoc; simpl.
  all: first [ by exists [EvReadVm; EvReadVm; EvReadVm]; split; [| repeat constructor]
             | by exists [EvReadVm; EvReadVm]; split; [| repeat constructor]
             | by exists [EvReadVm]; split; [| repeat constructor] ].
Qed.

Lemma create_flags_follow_capabilities_witness :
  exists reads,
    trace (fst (snapshot_vm (Scenario.server None (inr None) (inr tt))
                  Cases.create_params (Scenario.start None)))
    = [] ++ reads ++ [EvCreateSnapshot (Py.VStr "snap1") "first" true false]
    /\ Forall (eq EvReadVm) reads.
Proof.
  apply (create_flags_follow_capabilities
           (Scenario.server None (inr None) (inr tt)) Cases.create_params
           (Scenario.start None) (Scenario.machine None)); reflexivity.
Defined.

(** X10: [snapshot_vm] turns every failure of the creation into a
    [fail_json]: a licence restriction gets the message of the restriction,
    any other exception the message with the name of the machine and the
    text of the exception; the task is returned as the call gives it. *)
Theorem create_failures_become_fail_json
    (srv : vSphere) (module : Params) (s : Self) (v : VirtualMachine) :
  snap_object s = None ->
  vm s = Some v ->
  snd (snapshot_vm srv module s)
  = match CreateSnapshot srv v (of_str (snapshot_name module)) (description module)
            (memory_dump module && memorySnapshotsSupported v)
            (quiesce module && quiescedSnapshotsSupported v) with
    | inr t => inr t
    | inl (Py.RestrictedVersion msg _) =>
        inl (FailJson ("Failed to take snapshot due to VMware Licence restriction : "
                         +:+ msg))
    | inl e =>
        inl (FailJson ("Failed to create snapshot of virtual machine "
                         +:+ Py.str (of_str (vm_name module)) +:+ " due to "
                         +:+ Py.exn_text e))
    end.
Proof.
  intros Hsnap Hvm. unfold_py. rewrite Hsnap. simpl.
  destruct (memory_dump module), (quiesce module); simpl; rewrite ?Hvm; simpl;
    rewrite ?Hvm; simpl; rewrite ?Hvm; simpl; py_cases.
Qed.

Lemma create_failures_become_fail_json_witness :
  snd (snapshot_vm Cases.unlicensed Cases.create_params (Scenario.start None))
  = inl (FailJson "Failed to take snapshot due to VMware Licence restriction : no licence").
Proof.
  rewrite (create_failures_become_fail_json Cases.unlicensed Cases.create_params
             (Scenario.start None) (Scenario.machine None));
    reflexivity.
Defined.

(** X11: what [rename_snapshot] passes and records.  On the resolved
    snapshot it makes one [RenameSnapshot] call; the name is passed when
    [new_snapshot_name] is not empty, and then the description only when
    [new_description] is not empty either; without a name the description is
    passed as it is, even when there is none.  [changed] and [renamed] are
    set when the call returns, and left alone when it raises. *)
Theorem rename_passes_given_fields
    (srv : vSphere) (module : Params) (s : Self) (o : moref) :
  snap_object s = Some o ->
  exists kw,
    trace (fst (rename_snapshot srv module s)) = trace s ++ [EvRenameSnapshot o kw]
    /\ kw_name kw = if_str (new_snapshot_name module)
    /\ kw_description kw
       = match if_str (new_snapshot_name module), if_str (new_description module) with
         | Some _, None => None
         | _, _ => Some (new_description module)
         end
    /\ match RenameSnapshot srv o kw with
       | inr t =>
           snd (rename_snapshot srv module s) = inr t
           /\ result (fst (rename_snapshot srv module s))
              = {| changed := true; renamed := true;
                   snapshot_results := snapshot_results (result s) |}
       | inl e =>
           snd (rename_snapshot srv module s) = inl (Raise e)
           /\ result (fst (rename_snapshot srv module s)) = result s
       end.
Proof.
  intros Hsnap. unfold_py.
  destruct (if_str (new_snapshot_name module)) as [n|] eqn:Hn;
    [destruct (if_str (new_description module)) as [d|] eqn:Hd |];
    simpl; rewrite Hsnap; simpl.
  - exists {| kw_name := Some n; kw_description := Some (Some d) |}.
    assert (Hdesc : new_description module = Some d).
    { unfold if_str in Hd. destruct (new_description module); [| done].
      destruct (Py.truthy _); by simplify_eq. }
    rewrite Hdesc. destruct (RenameSnapshot srv o _); done.
  - exists {| kw_name := Some n; kw_description := None |}.
    destruct (RenameSnapshot srv o _); done.
  - exists {| kw_name := None; kw_description := Some (new_description module) |}.
    destruct (RenameSnapshot srv o _); done.
Qed.

Lemma rename_passes_given_fields_witness :
  exists kw,
    trace (fst (rename_snapshot (Scenario.server None (inr None) (inr tt))
                  (Scenario.params rename (Some "snap3") None) Cases.resolved))
    = [] ++ [EvRenameSnapshot "snapshot-snap3" kw]
    /\ kw_name kw = Some "renamed3".
Proof.
  destruct (rename_passes_given_fields (Scenario.server None (inr None) (inr tt))
              (Scenario.params rename (Some "snap3") None) Cases.resolved
              "snapshot-snap3" eq_refl)
    as (kw & Htrace & Hname & _).
  exists kw. split; [exact Htrace | exact Hname].
Defined.

(** X12: the three operations that run as a task.  With a snapshot
    resolved, [absent] removes it with the [remove_children] of the
    parameters, [revert] reverts to it and [remove_all] acts on the machine
    of [self.vm]: the dispatch table is built and that one call is made.  An
    exception of the call fails the run with the text of the exception; when
    the call gives no task the operation returns with [self.result]
    untouched; a task is awaited, a [TaskError] fails the run with its text,
    any other exception of the wait goes up as it is, and nothing is listed
    in these cases; after a successful wait, and only then, the snapshots
    are listed, and [changed] and the listing are in [self.result]. *)
Theorem task_operation_outcome
    (srv : vSphere) (module : Params) (s : Self) (o : moref) (v : VirtualMachine)
    (reply : Py.exn + option task) (op : event) :
  snap_object s = Some o ->
  vm s = Some v ->
  (state module = absent
   /\ reply = RemoveSnapshot_Task srv o (remove_children module)
   /\ op = EvRemoveSnapshot o (remove_children module))
  \/ (state module = revert
      /\ reply = RevertToSnapshot_Task srv o
      /\ op = EvRevertToSnapshot o)
  \/ (state module = remove_all
      /\ reply = RemoveAllSnapshots srv v
      /\ op = EvRemoveAllSnapshots (vm_moid v)) ->
  match reply with
  | inl e =>
      snd (apply_snapshot_op srv module s) = inl (FailJson (Py.exn_text e))
      /\ trace (fst (apply_snapshot_op srv module s))
         = trace s ++ [EvReadVm; EvTable; op]
  | inr None =>
      snd (apply_snapshot_op srv module s) = inr tt
      /\ result (fst (apply_snapshot_op srv module s)) = result s
      /\ trace (fst (apply_snapshot_op srv module s))
         = trace s ++ [EvReadVm; EvTable; op]
  | inr (Some t) =>
      match wait_for_completion srv t v with
      | inr _ =>
          snd (apply_snapshot_op srv module s) = inr tt
          /\ result (fst (apply_snapshot_op srv module s))
             = {| changed := true; renamed := renamed (result s);
                  snapshot_results := Some (list_snapshots srv v) |}
          /\ trace (fst (apply_snapshot_op srv module s))
             = trace s ++ [EvReadVm; EvTable; op; EvReadVm; EvWait t;
                           EvReadVm; EvListSnapshots]
      | inl (Py.TaskError msg) =>
          snd (apply_snapshot_op srv module s) = inl (FailJson msg)
          /\ trace (fst (apply_snapshot_op srv module s))
             = trace s ++ [EvReadVm; EvTable; op; EvReadVm; EvWait t]
      | inl e =>
          snd (apply_snapshot_op srv module s) = inl (Raise e)
          /\ trace (fst (apply_snapshot_op srv module s))
             = trace s ++ [EvReadVm; EvTable; op; EvReadVm; EvWait t]
      end
  end.
Proof.
  intros Hsnap Hvm Hst. unfold_py. rewrite Hsnap. simpl.
  destruct Hst as [(-> & -> & ->) | [(-> & -> & ->) | (-> & -> & ->)]]; simpl;
    rewrite ?Hsnap; simpl; rewrite ?Hvm; simpl; rewrite ?Hsnap; simpl;
    py_cases; repeat match goal with u : unit |- _ => destruct u end;
    repeat split; rewrite <- ?app_assoc; reflexivity.
Qed.

Lemma task_operation_outcome_witness :
  snd (apply_snapshot_op (Scenario.server (Some Scenario.tree) (inr None) (inr tt))
         (Scenario.params absent (Some "snap3") None) Cases.resolved) = inr tt
  /\ result (fst (apply_snapshot_op
                    (Scenario.server (Some Scenario.tree) (inr None) (inr tt))
                    (Scenario.params absent (Some "snap3") None) Cases.resolved))
     = {| changed := true; renamed := false;
          snapshot_results := Some Scenario.listing |}
  /\ trace (fst (apply_snapshot_op
                   (Scenario.server (Some Scenario.tree) (inr None) (inr tt))
                   (Scenario.params absent (Some "snap3") None) Cases.resolved))
     = [] ++ [EvReadVm; EvTable; EvRemoveSnapshot "snapshot-snap3" false;
              EvReadVm; EvWait "task-remove"; EvReadVm; EvListSnapshots].
Proof.
  apply (task_operation_outcome
           (Scenario.server (Some Scenario.tree) (inr None) (inr tt))
           (Scenario.params absent (Some "snap3") None) Cases.resolved
           "snapshot-snap3" (Scenario.machine (Some Scenario.tree))
           (inr (Some "task-remove")) (EvRemoveSnapshot "snapshot-snap3" false));
    [reflexivity | reflexivity | left; repeat split; reflexivity].
Defined.

(** What a run of the module calls, and how often. *)
Lemma main_calls srv module vm0 :
  (length (List.filter is_mutation
             (trace (fst (main srv module (after_super vm0))))) <= 1)%nat
  /\ (length (List.filter is_lookup
                (trace (fst (main srv module (after_super vm0))))) <= 1)%nat
  /\ (length (List.filter is_search
                (trace (fst (main srv module (after_super vm0))))) <= 1)%nat
  /\ (length (List.filter is_wait
                (trace (fst (main srv module (after_super vm0))))) <= 1)%nat
  /\ (length (List.filter is_listing
                (trace (fst (main srv module (after_super vm0))))) <= 1)%nat
  /\ (forall kw, snd (main srv module (after_super vm0)) = inl (ExitJson kw) ->
                 x_changed kw = true ->
                 existsb is_mutation
                   (trace (fst (main srv module (after_super vm0)))) = true).
Proof.
  unfold_py. unfold after_super. simpl.
  py_cases; cbn; repeat split; try lia; intros kw [= <-]; cbn; done.
Qed.

(** X13: a run changes the server once at most: its events hold at most
    one call that creates, renames, removes or reverts, at most one VM
    lookup, one search, one wait for a task and one listing. *)
Theorem one_operation_per_run
    (srv : vSphere) (module : Params) (vm0 : option VirtualMachine) :
  (length (List.filter is_mutation
             (trace (fst (main srv module (after_super vm0))))) <= 1)%nat
  /\ (length (List.filter is_lookup
                (trace (fst (main srv module (after_super vm0))))) <= 1)%nat
  /\ (length (List.filter is_search
                (trace (fst (main srv module (after_super vm0))))) <= 1)%nat
  /\ (length (List.filter is_wait
                (trace (fst (main srv module (after_super vm0))))) <= 1)%nat
  /\ (length (List.filter is_listing
                (trace (fst (main srv module (after_super vm0))))) <= 1)%nat.
Proof.
  destruct (main_calls srv module vm0) as (H1 & H2 & H3 & H4 & H5 & _). auto.
Qed.

(** X14: [changed=True] is reported only after a call that changes the
    snapshots of the machine was made. *)
Theorem changed_reported_only_after_a_change
    (srv : vSphere) (module : Params) (vm0 : option VirtualMachine)
    (kw : exit_kwargs) :
  snd (main srv module (after_super vm0)) = inl (ExitJson kw) ->
  x_changed kw = true ->
  existsb is_mutation (trace (fst (main srv module (after_super vm0)))) = true.
Proof.
  destruct (main_calls srv module vm0) as (_ & _ & _ & _ & _ & H). apply H.
Qed.

Lemma changed_reported_only_after_a_change_witness :
  existsb is_mutation
    (trace (fst (main (Scenario.server (Some Scenario.tree) (inr None) (inr tt))
                   (Scenario.params absent None (Some 5))
                   (after_super (Some (Scenario.machine (Some Scenario.tree)))))))
  = true.
Proof.
  apply (changed_reported_only_after_a_change
           (Scenario.server (Some Scenario.tree) (inr None) (inr tt))
           (Scenario.params absent None (Some 5))
           (Some (Scenario.machine (Some Scenario.tree)))
           {| x_changed := true; x_renamed := Some false; x_msg := None;
              x_snapshot_results := Some Scenario.listing |});
    reflexivity.
Defined.

(** ** The REST client *)

Lemma append_empty_r (s : string) : s +:+ "" = s.
Proof. induction s as [|c s IH]; [done |]. change (String c (s +:+ "") = String c s). by f_equal. Qed.

Lemma format_connect_message h p :
  Py.percent_format "Failed to connect to vCenter or ESXi API at %s:%s" [h; p]
  = inr ("Failed to connect to vCenter or ESXi API at "
           +:+ Py.str h +:+ ":" +:+ Py.str p).
Proof.
  cbn. rewrite append_empty_r. reflexivity.
Qed.

Lemma format_server h p :
  Py.percent_format "%s:%s" [h; p] = inr (Py.str h +:+ ":" +:+ Py.str p).
Proof. cbn. rewrite append_empty_r. reflexivity. Qed.

Lemma format_login h :
  Py.percent_format "Failed to login to %s" [h] = inr ("Failed to login to " +:+ Py.str h).
Proof. cbn. rewrite append_empty_r. reflexivity. Qed.

Section Connection.

Context (HAS_URLLIB3 : bool) (fresh_session : Rest.Session)
        (create_vsphere_client :
           string -> Py.value -> Py.value -> Rest.Session
           -> Py.exn + option Rest.client).

Lemma string_append_assoc (a b c : string) : (a +:+ b) +:+ c = a +:+ b +:+ c.
Proof.
  induction a as [|x a IH]; [done |].
  change (String x ((a +:+ b) +:+ c) = String x (a +:+ b +:+ c)). by f_equal.
Qed.

Lemma create_client_connection_outcome session hostname username password port :
  Rest.__create_client_connection create_vsphere_client session
                                  hostname username password port
  = ([Rest.EvCreateClient (Py.str hostname +:+ ":" +:+ Py.str port)
                          username password session],
     match create_vsphere_client (Py.str hostname +:+ ":" +:+ Py.str port)
                                 username password session with
     | inr (Some c) => inr c
     | inr None => inl (Py.ApiAccessError ("Failed to login to " +:+ Py.str hostname))
     | inl (Py.SSLError text) =>
         inl (Py.ApiAccessError
                (("Failed to connect to vCenter or ESXi API at "
                    +:+ Py.str hostname +:+ ":" +:+ Py.str port)
                   +:+ " due to SSL verification failure" +:+ " : " +:+ text))
     | inl e =>
         inl (Py.ApiAccessError
                (("Failed to connect to vCenter or ESXi API at "
                    +:+ Py.str hostname +:+ ":" +:+ Py.str port)
                   +:+ " : " +:+ Py.exn_text e))
     end).
Proof.
  unfold Rest.__create_client_connection.
  rewrite format_connect_message, format_server, format_login.
  cbv [Rest.bind Rest.lift Rest.emit Rest.ret Rest.raise].
  destruct (create_vsphere_client _ username password session) as [[] | []];
    cbn [app]; rewrite ?string_append_assoc; reflexivity.
Qed.

(** The run of [connect_to_api] when the proxies are left alone. *)
Lemma connect_without_proxy_run (connection_params : gmap string Py.value) :
  let hostname := Rest.get connection_params "hostname" Py.VNone in
  let username := Rest.get connection_params "username" Py.VNone in
  let password := Rest.get connection_params "password" Py.VNone in
  let port := Rest.get connection_params "port" (Py.VInt 443) in
  let validate_certs := Rest.get connection_params "validate_certs" Py.VNone in
  let session := {| Rest.verify := validate_certs;
                    Rest.proxies := Rest.proxies fresh_session |} in
  let server := Py.str hostname +:+ ":" +:+ Py.str port in
  let failed := "Failed to connect to vCenter or ESXi API at " +:+ server in
  Py.truthy hostname = true ->
  Py.truthy username = true ->
  Py.truthy password = true ->
  Py.truthy (Rest.get connection_params "http_proxy_host" Py.VNone) = false
  \/ Py.truthy (Rest.get connection_params "http_proxy_port" Py.VNone) = false
  \/ Py.truthy (Rest.get connection_params "http_proxy_protocol" Py.VNone) = false ->
  Rest.connect_to_api HAS_URLLIB3 fresh_session create_vsphere_client
                      connection_params
  = (Rest.EvNewSession
       :: (if negb (Py.truthy validate_certs) && HAS_URLLIB3
           then [Rest.EvDisableWarnings] else [])
       ++ [Rest.EvCreateClient server username password session],
     match create_vsphere_client server username password session with
     | inr (Some c) => inr c
     | inr None => inl (Py.ApiAccessError ("Failed to login to " +:+ Py.str hostname))
     | inl (Py.SSLError text) =>
         inl (Py.ApiAccessError
                (failed +:+ " due to SSL verification failure" +:+ " : " +:+ text))
     | inl e => inl (Py.ApiAccessError (failed +:+ " : " +:+ Py.exn_text e))
     end).
Proof.
  intros hostname username password port validate_certs session server failed
         Hh Hu Hp Hproxy.
  unfold Rest.connect_to_api.
  fold hostname username password port validate_certs.
  unfold Rest.__validate_required_connection_params. rewrite Hh, Hu, Hp.
  unfold Rest.__configure_session_ssl_context. fold session.
  assert (Hprox : Rest.__configure_session_proxies session
                    (Rest.get connection_params "http_proxy_host" Py.VNone)
                    (Rest.get connection_params "http_proxy_port" Py.VNone)
                    (Rest.get connection_params "http_proxy_protocol" Py.VNone)
                  = ([], inr session)).
  { unfold Rest.__configure_session_proxies.
    cbn [forallb]. destruct Hproxy as [-> | [-> | ->]];
      rewrite ?andb_false_r; reflexivity. }
  pose proof (create_client_connection_outcome session hostname username password
                port) as Hconn.
  fold server in Hconn. fold failed in Hconn.
  destruct (Py.truthy validate_certs), HAS_URLLIB3;
    cbv beta iota delta [Rest.bind Rest.emit Rest.ret Rest.raise negb andb];
    rewrite Hprox;
    cbv beta iota delta [Rest.bind Rest.emit Rest.ret Rest.raise negb andb];
    rewrite Hconn; reflexivity.
Qed.

(** X15: a connection without the full set of proxy parameters.  With
    hostname, username and password given, [connect_to_api] makes one
    connection attempt, to the server [hostname:port], with a session whose
    [verify] is [validate_certs] and whose proxies are untouched; the
    warnings are turned off before it exactly when [validate_certs] is false
    and urllib3 is there.  The client is returned as the SDK gives it; a
    failure of the SDK, and a client that is [None], come out as
    [ApiAccessError], the failure of the certificate check being told apart
    in the message. *)
Theorem connect_without_proxy (connection_params : gmap string Py.value) :
  let hostname := Rest.get connection_params "hostname" Py.VNone in
  let username := Rest.get connection_params "username" Py.VNone in
  let password := Rest.get connection_params "password" Py.VNone in
  let port := Rest.get connection_params "port" (Py.VInt 443) in
  let validate_certs := Rest.get connection_params "validate_certs" Py.VNone in
  let session := {| Rest.verify := validate_certs;
                    Rest.proxies := Rest.proxies fresh_session |} in
  let server := Py.str hostname +:+ ":" +:+ Py.str port in
  let failed := "Failed to connect to vCenter or ESXi API at " +:+ server in
  Py.truthy hostname = true ->
  Py.truthy username = true ->
  Py.truthy password = true ->
  Py.truthy (Rest.get connection_params "http_proxy_host" Py.VNone) = false
  \/ Py.truthy (Rest.get connection_params "http_proxy_port" Py.VNone) = false
  \/ Py.truthy (Rest.get connection_params "http_proxy_protocol" Py.VNone) = false ->
  Rest.connect_to_api HAS_URLLIB3 fresh_session create_vsphere_client
                      connection_params
  = (Rest.EvNewSession
       :: (if negb (Py.truthy validate_certs) && HAS_URLLIB3
           then [Rest.EvDisableWarnings] else [])
       ++ [Rest.EvCreateClient server username password session],
     match create_vsphere_client server username password session with
     | inr (Some c) => inr c
     | inr None => inl (Py.ApiAccessError ("Failed to login to " +:+ Py.str hostname))
     | inl (Py.SSLError text) =>
         inl (Py.ApiAccessError
                (failed +:+ " due to SSL verification failure" +:+ " : " +:+ text))
     | inl e => inl (Py.ApiAccessError (failed +:+ " : " +:+ Py.exn_text e))
     end).
Proof.
  intros hostname username password port validate_certs session server failed.
  apply connect_without_proxy_run.
Qed.

(** X16: the port of a connection attempt.  When a connection is
    attempted (hostname, username and password given, the proxy parameters
    not all three given), every attempt goes to [hostname:443] when the
    parameters have no key [port], and to [hostname:] followed by the text of
    the value when they have the key, whatever the value is: a port [None]
    gives [hostname:None]. *)
Theorem default_port_only_for_missing_key (connection_params : gmap string Py.value) :
  Py.truthy (Rest.get connection_params "hostname" Py.VNone) = true ->
  Py.truthy (Rest.get connection_params "username" Py.VNone) = true ->
  Py.truthy (Rest.get connection_params "password" Py.VNone) = true ->
  Py.truthy (Rest.get connection_params "http_proxy_host" Py.VNone) = false
  \/ Py.truthy (Rest.get connection_params "http_proxy_port" Py.VNone) = false
  \/ Py.truthy (Rest.get connection_params "http_proxy_protocol" Py.VNone) = false ->
  let server :=
    Py.str (Rest.get connection_params "hostname" Py.VNone) +:+ ":"
    +:+ match connection_params !! "port" with
        | None => "443"
        | Some port => Py.str port
        end in
  (exists u p s,
     In (Rest.EvCreateClient server u p s)
        (fst (Rest.connect_to_api HAS_URLLIB3 fresh_session create_vsphere_client
                connection_params)))
  /\ (forall server' u p s,
        In (Rest.EvCreateClient server' u p s)
           (fst (Rest.connect_to_api HAS_URLLIB3 fresh_session create_vsphere_client
                   connection_params)) ->
        server' = server).
Proof.
  intros Hh Hu Hp Hproxy server.
  pose proof (connect_without_proxy_run connection_params Hh Hu Hp Hproxy) as Hrun.
  assert (Hport : Py.str (Rest.get connection_params "port" (Py.VInt 443))
                  = match connection_params !! "port" with
                    | None => "443"
                    | Some port => Py.str port
                    end).
  { unfold Rest.get. by destruct (connection_params !! "port"). }
  rewrite Hrun, Hport. fold server. cbn [fst]. split.
  - eexists _, _, _. right. apply in_app_iff. right. left. reflexivity.
  - intros server' u p s [Hin | Hin]; [discriminate Hin |].
    apply in_app_iff in Hin as [Hin | [Hin | []]].
    + destruct (negb _ && _); [destruct Hin as [Hin | []]; discriminate Hin | done].
    + by injection Hin as <- _ _ _.
Qed.

End Connection.

Lemma connect_without_proxy_witness :
  Rest.connect_to_api true Scenario.session0 (fun _ _ _ _ => inr (Some "client"))
                      Scenario.complete
  = ([Rest.EvNewSession;
      Rest.EvCreateClient "vcenter.example:443" (Py.VStr "admin") (Py.VStr "secret")
                          Scenario.session0],
     inr "client").
Proof.
  apply (connect_without_proxy true Scenario.session0
           (fun _ _ _ _ => inr (Some "client")) Scenario.complete);
    [reflexivity | reflexivity | reflexivity | left; reflexivity].
Defined.

Lemma default_port_only_for_missing_key_witness :
  exists u p s,
    In (Rest.EvCreateClient "vcenter.example:8443" u p s)
       (fst (Rest.connect_to_api true Scenario.session0
               (fun _ _ _ _ => inr (Some "client"))
               (<["port" := Py.VInt 8443]> Scenario.complete))).
Proof.
  destruct (default_port_only_for_missing_key true Scenario.session0
              (fun _ _ _ _ => inr (Some "client"))
              (<["port" := Py.VInt 8443]> Scenario.complete))
    as [Hattempt _];
    [reflexivity | reflexivity | reflexivity | left; reflexivity |].
  exact Hattempt.
Defined.

Section ClientObject.

Context (REQUESTS_IMP_ERR VSPHERE_IMP_ERR : option string)
        (HAS_URLLIB3 : bool)
        (fresh_session : Rest.Session)
        (create_vsphere_client :
           string -> Py.value -> Py.value -> Rest.Session
           -> Py.exn + option Rest.client)
        (attribute : Rest.client -> string -> RestClient.service)
        (list_attached_tags :
           RestClient.service -> RestClient.DynamicID
           -> Py.exn + list RestClient.tag_id)
        (tag_get : RestClient.service -> RestClient.tag_id -> Py.exn + RestClient.tag).

(** X17: a library that failed to import stops the construction of the
    client before the connection parameters are looked at: a missing
    [requests] is reported first, then a missing SDK, with the address to get
    it from; nothing is done before, whatever the parameters are.  With both
    libraries there, the client is built exactly when the connection is. *)
Theorem missing_library_stops_construction
    (connection_params : gmap string Py.value) :
  (forall err, if_str REQUESTS_IMP_ERR = Some err ->
     RestClient.__init__ REQUESTS_IMP_ERR VSPHERE_IMP_ERR HAS_URLLIB3 fresh_session
       create_vsphere_client attribute connection_params
     = ([], inl (Py.MissingLibError "requests" err None)))
  /\ (forall err, if_str REQUESTS_IMP_ERR = None -> if_str VSPHERE_IMP_ERR = Some err ->
        RestClient.__init__ REQUESTS_IMP_ERR VSPHERE_IMP_ERR HAS_URLLIB3 fresh_session
          create_vsphere_client attribute connection_params
        = ([], inl (Py.MissingLibError "vSphere Automation SDK" err
                      (Some "https://code.vmware.com/web/sdk/7.0/vsphere-automation-python"))))
  /\ (if_str REQUESTS_IMP_ERR = None -> if_str VSPHERE_IMP_ERR = None ->
      fst (RestClient.__init__ REQUESTS_IMP_ERR VSPHERE_IMP_ERR HAS_URLLIB3
             fresh_session create_vsphere_client attribute connection_params)
      = fst (Rest.connect_to_api HAS_URLLIB3 fresh_session create_vsphere_client
               connection_params)
      /\ forall c,
           snd (Rest.connect_to_api HAS_URLLIB3 fresh_session create_vsphere_client
                  connection_params) = inr c <->
           exists self,
             snd (RestClient.__init__ REQUESTS_IMP_ERR VSPHERE_IMP_ERR HAS_URLLIB3
                    fresh_session create_vsphere_client attribute connection_params)
             = inr self
             /\ RestClient.api_client self = c).
Proof.
  unfold RestClient.__init__, Rest.check_requirements.
  split; [| split].
  - intros err ->. reflexivity.
  - intros err -> ->. reflexivity.
  - intros -> ->. cbv beta iota delta [Rest.bind Rest.ret].
    destruct (Rest.connect_to_api _ _ _ _) as [t [e | c']]; cbn [fst snd app].
    + split; [done |]. intros c. split; [done |]. by intros (self & [=] & _).
    + split; [by rewrite app_nil_r |]. intros c. split.
      * intros [= ->]. eexists. split; reflexivity.
      * intros (self & [= <-] & <-). reflexivity.
Qed.

(** The loop: the calls it makes and what it returns, when every tag is
    there. *)
Lemma get_each_all_found self tag_ids tags found :
  Forall2 (fun t x => tag_get (RestClient.tag_service self) t = inr x) tag_ids found ->
  RestClient.get_each tag_get self tag_ids tags
  = (map (RestClient.EvGetTag (RestClient.tag_service self)) tag_ids,
     inr (tags ++ found)).
Proof.
  intros H. revert tags. induction H as [|t x tag_ids found Ht _ IH]; intros tags.
  - simpl. unfold RestClient.ret. by rewrite app_nil_r.
  - simpl. unfold RestClient.bind, RestClient.invoke. rewrite Ht, IH.
    by rewrite <- app_assoc.
Qed.

(** X18: the tags of a machine and of a host.  [get_tags_by_vm_moid] asks
    for the tags attached to the object of type [VirtualMachine] with the
    given id, [get_tags_by_host_moid] to the one of type [HostSystem]; when
    each attached tag can be read, the result has one tag object for each id,
    in the order of the ids, and the calls are the list call followed by one
    read for each id. *)
Theorem tags_of_object_in_order
    (self : RestClient.VmwareRestClient) (obj_moid : string)
    (tag_ids : list RestClient.tag_id) (found : list RestClient.tag)
    (kind : string) (query : RestClient.VmwareRestClient -> string
                             -> RestClient.Q (list RestClient.tag)) :
  (kind = "VirtualMachine"
   /\ query = RestClient.get_tags_by_vm_moid list_attached_tags tag_get)
  \/ (kind = "HostSystem"
      /\ query = RestClient.get_tags_by_host_moid list_attached_tags tag_get) ->
  list_attached_tags (RestClient.tag_association_service self)
    {| RestClient.dyn_type := kind; RestClient.dyn_id := obj_moid |} = inr tag_ids ->
  Forall2 (fun t x => tag_get (RestClient.tag_service self) t = inr x) tag_ids found ->
  query self obj_moid
  = (RestClient.EvListAttachedTags (RestClient.tag_association_service self)
       {| RestClient.dyn_type := kind; RestClient.dyn_id := obj_moid |}
       :: map (RestClient.EvGetTag (RestClient.tag_service self)) tag_ids,
     inr found).
Proof.
  intros Hkind Hlist Hfound.
  destruct Hkind as [[-> ->] | [-> ->]];
    unfold RestClient.get_tags_by_vm_moid, RestClient.get_tags_by_host_moid,
      RestClient.get_tags_for_dynamic_id_obj, RestClient.bind, RestClient.invoke;
    rewrite Hlist, (get_each_all_found self tag_ids [] found Hfound); reflexivity.
Qed.

(** X19: a tag that cannot be read ends the query with the exception of
    that read: the tags read before it are dropped, and no tag after it is
    asked for. *)
Theorem unreadable_tag_aborts_query
    (self : RestClient.VmwareRestClient) (dobj : RestClient.DynamicID)
    (before after : list RestClient.tag_id) (bad : RestClient.tag_id)
    (found : list RestClient.tag) (e : Py.exn) :
  list_attached_tags (RestClient.tag_association_service self) dobj
  = inr (before ++ bad :: after) ->
  Forall2 (fun t x => tag_get (RestClient.tag_service self) t = inr x) before found ->
  tag_get (RestClient.tag_service self) bad = inl e ->
  RestClient.get_tags_for_dynamic_id_obj list_attached_tags tag_get self (Some dobj)
  = (RestClient.EvListAttachedTags (RestClient.tag_association_service self) dobj
       :: map (RestClient.EvGetTag (RestClient.tag_service self)) (before ++ [bad]),
     inl e).
Proof.
  intros Hlist Hfound Hbad.
  unfold RestClient.get_tags_for_dynamic_id_obj, RestClient.bind at 1,
    RestClient.invoke at 1.
  rewrite Hlist.
  assert (Hloop : forall tags,
            RestClient.get_each tag_get self (before ++ bad :: after) tags
            = (map (RestClient.EvGetTag (RestClient.tag_service self)) (before ++ [bad]),
               inl e)).
  { clear Hlist. induction Hfound as [|t x before found Ht _ IH]; intros tags; simpl.
    - unfold RestClient.bind, RestClient.invoke. by rewrite Hbad.
    - unfold RestClient.bind, RestClient.invoke. by rewrite Ht, IH. }
  by rewrite Hloop.
Qed.

End ClientObject.

Lemma tags_of_object_in_order_witness :
  RestClient.get_tags_by_vm_moid RestClient.example_attached RestClient.example_get
    RestClient.example_client "vm-42"
  = ([RestClient.EvListAttachedTags "TagAssociation"
        {| RestClient.dyn_type := "VirtualMachine"; RestClient.dyn_id := "vm-42" |};
      RestClient.EvGetTag "Tag" "id-1"; RestClient.EvGetTag "Tag" "id-2";
      RestClient.EvGetTag "Tag" "id-3"],
     inr ["tag of id-1"; "tag of id-2"; "tag of id-3"]).
Proof.
  apply (tags_of_object_in_order RestClient.example_attached RestClient.example_get
           RestClient.example_client "vm-42" ["id-1"; "id-2"; "id-3"]
           ["tag of id-1"; "tag of id-2"; "tag of id-3"] "VirtualMachine"
           (RestClient.get_tags_by_vm_moid RestClient.example_attached
              RestClient.example_get)).
  - left. split; reflexivity.
  - reflexivity.
  - repeat constructor.
Defined.

Lemma unreadable_tag_aborts_query_witness :
  RestClient.get_tags_for_dynamic_id_obj RestClient.example_attached
    RestClient.example_get_broken RestClient.example_client
    (Some {| RestClient.dyn_type := "HostSystem"; RestClient.dyn_id := "host-7" |})
  = ([RestClient.EvListAttachedTags "TagAssociation"
        {| RestClient.dyn_type := "HostSystem"; RestClient.dyn_id := "host-7" |};
      RestClient.EvGetTag "Tag" "id-1"; RestClient.EvGetTag "Tag" "id-2"],
     inl (Py.OtherException "not found")).
Proof.
  apply (unreadable_tag_aborts_query RestClient.example_attached
           RestClient.example_get_broken RestClient.example_client
           {| RestClient.dyn_type := "HostSystem"; RestClient.dyn_id := "host-7" |}
           ["id-1"] ["id-3"] "id-2" ["tag of id-1"] (Py.OtherException "not found")).
  - reflexivity.
  - repeat constructor.
  - reflexivity.
Defined.
